(** * SpongeBob CLI chatbot: a shallow embedding of [spongebob_cli.py]

    The development follows the source file top to bottom: Python strings
    and their methods, Python values as returned by [resp.json()], the
    exceptions the program can see, then [truncate_history], [call_api],
    [save_transcript] and the body of the [while True] loop of [main].

    A Python [str] is modelled by the bytes of its UTF-8 encoding, held in
    Rocq's [string]; a lone surrogate is encoded in three bytes like any
    other code point, so that every [str] has one encoding.  Whitespace is
    the class of [str.isspace], over all of Unicode.  The case mappings
    [str.lower] and [str.capitalize] are parameters of the development;
    their restriction to ASCII text is defined, for the examples.
    The exceptions modelled are those deriving from [Exception], which the
    two handlers of [main] catch, and the [EOFError]/[KeyboardInterrupt]
    that [input] raises.

    The loop body is given twice.  [step] is the iteration when every
    [print] succeeds and every text written to the transcript can be
    encoded.  [step_io] is the iteration on a terminal where [print] can
    raise, with a transcript file that holds what was written before an
    exception; the two agree wherever the iteration does not reach the
    handler at the end of [main]. *)

From Stdlib Require Import ZArith String Ascii List Floats Lia.
From stdpp Require Import base option list strings gmap pretty.

Set Warnings "-register-all,-inexact-float".
Local Open Scope string_scope.
Local Open Scope list_scope.
Local Open Scope Z_scope.

(** ** Python results: a value, or a raised exception *)

(** The exception classes the program can meet.  All of them derive from
    [Exception]; [str(e)] is the carried message.  [LibraryError] stands for
    what library code raises ([requests] exceptions, [JSONDecodeError],
    [OSError]). *)
Inductive exn : Type :=
| IndexError (msg : string)
| AttributeError (msg : string)
| RuntimeError (msg : string)
| LibraryError (msg : string).

Definition exn_str (e : exn) : string :=
  match e with
  | IndexError m | AttributeError m | RuntimeError m | LibraryError m => m
  end.

Inductive result (A : Type) : Type :=
| Ok (a : A)
| Raise (e : exn).
Arguments Ok {A} a.
Arguments Raise {A} e.

Definition bind {A B : Type} (r : result A) (k : A -> result B) : result B :=
  match r with
  | Ok a => k a
  | Raise e => Raise e
  end.

Notation "x <~ r ;; k" := (bind r (fun x => k))
  (at level 100, r at next level, right associativity).

Definition returns {A : Type} (r : result A) : Prop := exists a, r = Ok a.

(** ** Python sequences *)

(** [l[i]] for a non-negative literal index. *)
Definition py_getitem {A : Type} (l : list A) (i : nat) : result A :=
  match l !! i with
  | Some a => Ok a
  | None => Raise (IndexError "list index out of range")
  end.

(** Clamping of a slice bound, as [PySlice_AdjustIndices] does. *)
Definition py_slice_bound (len i : Z) : nat :=
  Z.to_nat (if i <? 0 then Z.max 0 (len + i) else Z.min i len).

(** [l[i:]] *)
Definition py_slice_from {A : Type} (l : list A) (i : Z) : list A :=
  drop (py_slice_bound (Z.of_nat (length l)) i) l.

(** [l[:j]] *)
Definition py_slice_to {A : Type} (l : list A) (j : Z) : list A :=
  take (py_slice_bound (Z.of_nat (length l)) j) l.

(** ** Python strings *)

Definition newline : string := String "010" "".

(** The characters of which [str.isspace] holds are U+0009 to U+000D,
    U+001C to U+0020, U+0085, U+00A0, U+1680, U+2000 to U+200A, U+2028,
    U+2029, U+202F, U+205F and U+3000.  [space_len s] is the number of
    bytes of the whitespace character [s] starts with, and [0] when it
    starts with none.  The first byte of such a character is never a
    continuation byte, so none is found inside another character. *)
Definition space_len (s : string) : nat :=
  match s with
  | EmptyString => 0%nat
  | String a r =>
      let x := N_of_ascii a in
      if (((9 <=? x) && (x <=? 13)) || ((28 <=? x) && (x <=? 32)))%N then 1%nat
      else
        match r with
        | EmptyString => 0%nat
        | String b r' =>
            let y := N_of_ascii b in
            if ((x =? 194) && ((y =? 133) || (y =? 160)))%N then 2%nat
            else
              match r' with
              | EmptyString => 0%nat
              | String c _ =>
                  let z := N_of_ascii c in
                  if (((x =? 225) && (y =? 154) && (z =? 128))
                      || ((x =? 226) && (y =? 128)
                          && (((128 <=? z) && (z <=? 138))
                              || (z =? 168) || (z =? 169) || (z =? 175)))
                      || ((x =? 226) && (y =? 129) && (z =? 159))
                      || ((x =? 227) && (y =? 128) && (z =? 128)))%N
                  then 3%nat else 0%nat
              end
        end
  end.

Definition lower_char (c : ascii) : ascii :=
  let n := N_of_ascii c in
  if ((65 <=? n) && (n <=? 90))%N then ascii_of_N (n + 32) else c.

Definition upper_char (c : ascii) : ascii :=
  let n := N_of_ascii c in
  if ((97 <=? n) && (n <=? 122))%N then ascii_of_N (n - 32) else c.

(** [s] holds ASCII characters only. *)
Fixpoint is_ascii (s : string) : bool :=
  match s with
  | EmptyString => true
  | String c r => (N_of_ascii c <? 128)%N && is_ascii r
  end.

(** [s.lower()] for a [str] of ASCII characters. *)
Fixpoint ascii_lower (s : string) : string :=
  match s with
  | EmptyString => EmptyString
  | String c r => String (lower_char c) (ascii_lower r)
  end.

(** [s.capitalize()] for a [str] of ASCII characters: first character
    upper-cased, the rest lower-cased. *)
Definition ascii_capitalize (s : string) : string :=
  match s with
  | EmptyString => EmptyString
  | String c r => String (upper_char c) (ascii_lower r)
  end.

Definition is_empty (s : string) : bool :=
  match s with EmptyString => true | String _ _ => false end.

(** [s.lstrip()] *)
Fixpoint lstrip (s : string) : string :=
  match s with
  | EmptyString => EmptyString
  | String _ r1 =>
      match space_len s, r1 with
      | 1%nat, _ => lstrip r1
      | 2%nat, String _ r2 => lstrip r2
      | 3%nat, String _ (String _ r3) => lstrip r3
      | _, _ => s
      end
  end.

(** [s] is made of whitespace characters only; so is the empty [str]. *)
Fixpoint all_space (s : string) : bool :=
  match s with
  | EmptyString => true
  | String _ r1 =>
      match space_len s, r1 with
      | 1%nat, _ => all_space r1
      | 2%nat, String _ r2 => all_space r2
      | 3%nat, String _ (String _ r3) => all_space r3
      | _, _ => false
      end
  end.

(** [s.rstrip()]: cut where what is left is whitespace only. *)
Fixpoint rstrip (s : string) : string :=
  match s with
  | EmptyString => EmptyString
  | String c r => if all_space s then EmptyString else String c (rstrip r)
  end.

(** [s.strip()] *)
Definition strip (s : string) : string := rstrip (lstrip s).

(** [s.startswith(p)] *)
Definition startswith (p s : string) : bool := String.prefix p s.

(** The longest whitespace-free prefix of [s], and what follows it. *)
Fixpoint span_token (s : string) : string * string :=
  match s with
  | EmptyString => (EmptyString, EmptyString)
  | String c r =>
      match space_len s with
      | O => let '(t, rest) := span_token r in (String c t, rest)
      | _ => (EmptyString, s)
      end
  end.

(** [s.split(maxsplit=1)]: split on runs of whitespace, at most once.  The
    second piece keeps its trailing whitespace and is dropped when empty. *)
Definition split_maxsplit1 (s : string) : list string :=
  let s1 := lstrip s in
  if is_empty s1 then []
  else
    let '(tok, rest) := span_token s1 in
    let rest' := lstrip rest in
    if is_empty rest' then [tok] else [tok; rest'].

(** ** Python values *)

(** What [resp.json()] can return, and so what a message field can hold.
    A dict is given by the list of its items, whose keys are distinct. *)
Inductive json : Type :=
| JNull
| JBool (b : bool)
| JInt (n : Z)
| JFloat (f : float)
| JStr (s : string)
| JArr (l : list json)
| JObj (d : list (string * json)).

Definition py_type_name (v : json) : string :=
  match v with
  | JNull => "NoneType"
  | JBool _ => "bool"
  | JInt _ => "int"
  | JFloat _ => "float"
  | JStr _ => "str"
  | JArr _ => "list"
  | JObj _ => "dict"
  end.

Fixpoint assoc_get (k : string) (d : list (string * json)) : option json :=
  match d with
  | [] => None
  | (k', v) :: d' => if bool_decide (k' = k) then Some v else assoc_get k d'
  end.

(** [v[k]] for a string key [k]; [None] when the subscript raises
    ([KeyError] on a dict without the key, [TypeError] on anything else). *)
Definition subscript_key (v : json) (k : string) : option json :=
  match v with
  | JObj d => assoc_get k d
  | _ => None
  end.

(** [v[0]]; [None] when it raises.  A dict decoded from JSON has string
    keys only, so [d[0]] is a [KeyError]; [s[0]] on a string is its first
    character. *)
Definition subscript_0 (v : json) : option json :=
  match v with
  | JArr l => l !! 0%nat
  | JStr (String c _) => Some (JStr (String c EmptyString))
  | _ => None
  end.

(** A message is a Python dict with string keys. *)
Abbreviation message := (gmap string json).

(** [{"role": role, "content": content}] *)
Definition mk_message (role : string) (content : json) : message :=
  <["content" := content]> (<["role" := JStr role]> ∅).

(** [m.get(k, d)] *)
Definition dict_get (m : message) (k : string) (d : json) : json :=
  default d (m !! k).

(** ** [truncate_history] *)

(** Keep system + last N (user,assistant) pairs. *)
Definition truncate_history {A : Type} (history : list A) (max_pairs : Z)
  : result (list A) :=
  if bool_decide (max_pairs <= 0) then
    Ok (py_slice_to history 1)
  else
    let body := py_slice_from history 1 in
    let trimmed :=
      if bool_decide (Z.of_nat (length body) > 2 * max_pairs)
      then py_slice_from body (- (2 * max_pairs))
      else body in
    h0 <~ py_getitem history 0 ;;
    Ok (h0 :: trimmed).

(** ** Vocabulary of the specification *)

(** The last [n] elements of [l], in their original order. *)
Definition last_n {A : Type} (n : nat) (l : list A) : list A :=
  reverse (take n (reverse l)).

(** [sub] occurs in [s]. *)
Definition contains (sub s : string) : Prop :=
  exists pre post, s = pre +:+ sub +:+ post.

Fixpoint has_char (c : ascii) (s : string) : bool :=
  match s with
  | EmptyString => false
  | String c' r => Ascii.eqb c' c || has_char c r
  end.

(** [s] holds no blank line: no two newlines in a row, and no newline at
    its end. *)
Fixpoint no_blank_line (s : string) : bool :=
  match s with
  | EmptyString => true
  | String c r =>
      match r with
      | EmptyString => negb (Ascii.eqb c "010")
      | String c2 _ =>
          negb (Ascii.eqb c "010" && Ascii.eqb c2 "010") && no_blank_line r
      end
  end.

(** Modelled from the spec: the reader of a written transcript, which the
    repository does not contain.  Entries are separated by blank lines;
    each entry is a role label, a colon, a space and the content. *)
Fixpoint split_blank (s : string) : list string :=
  match s with
  | EmptyString => [EmptyString]
  | String c r =>
      let glued :=
        match split_blank r with
        | e :: es => String c e :: es
        | [] => [String c EmptyString]
        end in
      match r with
      | String c2 r2 =>
          if Ascii.eqb c "010" && Ascii.eqb c2 "010"
          then EmptyString :: split_blank r2
          else glued
      | EmptyString => glued
      end
  end.

Fixpoint split_colon (s : string) : option (string * string) :=
  match s with
  | EmptyString => None
  | String c r =>
      if Ascii.eqb c ":" then Some (EmptyString, r)
      else
        match split_colon r with
        | Some (l, rest) => Some (String c l, rest)
        | None => None
        end
  end.

Definition parse_entry (e : string) : option (string * string) :=
  match split_colon e with
  | Some (label, String sp content) =>
      if Ascii.eqb sp " " then Some (label, content) else None
  | _ => None
  end.

Fixpoint parse_entries (es : list string) : option (list (string * string)) :=
  match es with
  | [] => Some []
  | e :: es' =>
      if is_empty e then parse_entries es'
      else
        p ← parse_entry e;
        ps ← parse_entries es';
        Some (p :: ps)
  end.

Definition parse_transcript (t : string) : option (list (string * string)) :=
  parse_entries (split_blank t).

(** ** The command line and the remote endpoint *)

(** The namespace returned by [parse_args]. *)
Record args : Type := {
  max_turns : Z;
  temperature : float;
  system : option string;
  base_url : option string;
  model : option string;
  timeout : Z
}.

Definition DEFAULT_SYSTEM : string :=
  "You are SpongeBob SquarePants. Speak cheerfully with nautical puns, " +:+
  "occasional 'barnacles!' and 'jellyfishing' references. Be upbeat, kind, " +:+
  "and whimsical. Keep replies concise (1–5 sentences). Avoid harmful content.".

(** [o or d] for an optional string: [None] and the empty string are falsy. *)
Definition py_or (o : option string) (d : string) : string :=
  match o with
  | Some s => if is_empty s then d else s
  | None => d
  end.

(** [system_prompt = args.system or DEFAULT_SYSTEM] *)
Definition system_prompt (a : args) : string := py_or (system a) DEFAULT_SYSTEM.

(** [history = [{"role": "system", "content": system_prompt}]] *)
Definition system_message (a : args) : message :=
  mk_message "system" (JStr (system_prompt a)).

Definition initial_history (a : args) : list message := [system_message a].

(** The [requests.Response] fields the program reads; [json_body] is what
    [resp.json()] does (it raises on a body that is not JSON). *)
Record response : Type := {
  status_code : Z;
  text : string;
  json_body : result json
}.

(** One [session.post(url, json=payload, timeout=timeout)]. *)
Record request : Type := {
  req_url : string;
  req_model : string;
  req_messages : list message;
  req_temperature : float;
  req_timeout : Z
}.

(** [data["choices"][0]["message"]["content"]]; [None] when any of the four
    subscripts raises. *)
Definition extract_reply (data : json) : option json :=
  c ← subscript_key data "choices";
  c0 ← subscript_0 c;
  m ← subscript_key c0 "message";
  subscript_key m "content".

(** What the world does during one iteration of the loop: what
    [session.post] returns or raises if it is called, the value of
    [datetime.now().strftime("%Y%m%d_%H%M%S")], the string of
    [Path(p).expanduser().resolve()], and the message of the [OSError] that
    creating or opening the transcript file raises, if it does. *)
Record world : Type := {
  post_outcome : result response;
  now_stamp : string;
  resolve : string -> string;
  fs_error : option string
}.

(** What one iteration does to the outside: a [print], a request sent (or
    attempted), a file written. *)
Inductive event : Type :=
| Print (line : string)
| HttpPost (r : request)
| FileWrite (path : string) (contents : string).

Inductive control : Type :=
| Continue
| Break
| Exit1.

Record outcome : Type := {
  out_history : list message;
  out_events : list event;
  out_control : control
}.

(** A line returned by [input("You: ")], or [EOFError]/[KeyboardInterrupt]
    raised by it. *)
Inductive input_event : Type :=
| Line (s : string)
| Interrupted.

(** ** Start-up: environment and client *)

(** [os.environ] once [load_dotenv] has read [~/.soonerai.env]. *)
Abbreviation environ := (gmap string string).

(** [s.rstrip(chars)]: trailing characters that occur in [chars] removed. *)
Fixpoint rstrip_chars (chars s : string) : string :=
  match s with
  | EmptyString => EmptyString
  | String c r =>
      let r' := rstrip_chars chars r in
      if has_char c chars && is_empty r' then EmptyString else String c r'
  end.

(** [os.getenv(k)] is [env !! k]; [os.getenv(k, d)] is [default d (env !! k)]. *)
Definition load_env (env : environ) : option string * string * string :=
  let api_key := env !! "SOONERAI_API_KEY" in
  let base_url :=
    rstrip_chars "/"
      (py_or (Some (default "https://ai.sooners.us" (env !! "SOONERAI_BASE_URL")))
             "") in
  let model := default "gemma3:4b" (env !! "SOONERAI_MODEL") in
  (api_key, base_url, model).

(** Returns the headers it sets on the new [requests.Session], and the
    endpoint. *)
Definition make_client (api_key : option string) (base_url : string)
  : result (gmap string string * string) :=
  if is_empty (py_or api_key "") then
    Raise (RuntimeError "Missing SOONERAI_API_KEY in ~/.soonerai.env")
  else if is_empty base_url then
    Raise (RuntimeError
             "Missing SOONERAI_BASE_URL (expected 'https://ai.sooners.us')")
  else
    Ok (<["Content-Type" := "application/json"]>
          (<["Authorization" := "Bearer " +:+ py_or api_key ""]> ∅),
        base_url +:+ "/api/chat/completions").

(** [s * n] *)
Fixpoint string_repeat (s : string) (n : nat) : string :=
  match n with
  | O => EmptyString
  | S n' => s +:+ string_repeat s n'
  end.

(** The lines [print_banner] prints. *)
Definition print_banner (mdl base : string) : list string :=
  [ string_repeat "=" 72;
    "  SpongeBob CLI Chatbot  —  OpenAI-compatible Chat Completions";
    "  Model: " +:+ mdl +:+ " | Endpoint: " +:+ base +:+ "/api/chat/completions";
    "  Commands: :help  :reset  :save [path]  :quit";
    string_repeat "=" 72 ].

(** The messages after the system message come in pairs: one of role
    "user", then one of role "assistant". *)
Fixpoint alternating (l : list message) : Prop :=
  match l with
  | [] => True
  | u :: l' =>
      match l' with
      | [] => False
      | a :: l'' =>
          u !! "role" = Some (JStr "user")
          /\ a !! "role" = Some (JStr "assistant")
          /\ alternating l''
      end
  end.


(** ** The terminal *)

(** What [print] does with a text: [None] when it prints it, else the
    message of the exception it raises, a [UnicodeEncodeError] when
    [sys.stdout] cannot encode the text. *)
Record terminal : Type := {
  print_error : string -> option string
}.

(** ** Concrete sessions for the examples *)

Definition example_args : args :=
  {| max_turns := 1; temperature := 0.6; system := None;
     base_url := None; model := None; timeout := 60 |}.

(** A response body with one choice whose message has content [s]. *)
Definition reply_body (s : string) : json :=
  JObj [("choices", JArr [JObj [("message", JObj [("content", JStr s)])]])].

Definition ok_response (s : string) : response :=
  {| status_code := 200; text := "(body)"; json_body := Ok (reply_body s) |}.

Definition created_response (s : string) : response :=
  {| status_code := 201; text := "(body)"; json_body := Ok (reply_body s) |}.

Definition server_exploded : response :=
  {| status_code := 500; text := "server exploded";
     json_body := Raise (LibraryError "Expecting value: line 1 column 1 (char 0)") |}.

Definition world_of (net : result response) : world :=
  {| post_outcome := net; now_stamp := "20250101_120000";
     resolve := fun p => "/home/bob/" +:+ p; fs_error := None |}.

(** A stand-in for the two library functions in the closed examples, none
    of which reaches it. *)
Definition unused_repr : json -> string := fun _ => "(object)".

Definition example_world : world := world_of (Ok (ok_response "Ahoy!")).

Definition failing_world : world := world_of (Ok server_exploded).

(** A world whose file system refuses the transcript file. *)
Definition readonly_world : world :=
  {| post_outcome := Ok (ok_response "Ahoy!"); now_stamp := "20250101_120000";
     resolve := fun p => "/home/bob/" +:+ p;
     fs_error := Some "[Errno 13] Permission denied" |}.

(** The history after one turn, "hi" answered by "Ahoy!". *)
Definition example_history : list message :=
  [system_message example_args; mk_message "user" (JStr "hi");
   mk_message "assistant" (JStr "Ahoy!")].

Definition example_environ : environ :=
  <["SOONERAI_API_KEY" := "sk-test"]> ∅.

Definition example_override_args : args :=
  {| max_turns := 8; temperature := 0.6; system := None;
     base_url := Some "https://example.org//"; model := Some "";
     timeout := 60 |}.

(** A terminal that prints everything, and one whose encoding is ASCII. *)
Definition utf8_terminal : terminal := {| print_error := fun _ => None |}.

Definition ascii_terminal : terminal :=
  {| print_error := fun line =>
       if is_ascii line then None
       else Some "'ascii' codec can't encode characters" |}.

(** The code point U+D800 alone, as [json.loads] gives it for the escape
    [\ud800]. *)
Definition lone_surrogate : string :=
  String "237" (String "160" (String "128" "")).

Definition surrogates_not_allowed (entry : string) : string :=
  "'utf-8' codec can't encode character: surrogates not allowed".


Section Session.

(** Python library functions the program calls and this development does
    not define: [json.dumps(data, indent=2)], and [str(v)] for a value
    that is not a string. *)
Variable json_dumps_indent2 : json -> string.
Variable str_of_object : json -> string.

(** [str.lower] and [str.capitalize], which map the cased characters of
    all of Unicode. *)
Variable lower : string -> string.
Variable capitalize : string -> string.

(** The command keyword a line carries after [strip], if it is
    sigil-prefixed: its first token, lower-cased. *)
Definition command_word (raw : string) : option string :=
  let user := strip raw in
  if startswith ":" user then lower <$> (split_maxsplit1 user !! 0%nat)
  else None.

(** What an f-string puts for [{v}]. *)
Definition py_str (v : json) : string :=
  match v with
  | JStr s => s
  | _ => str_of_object v
  end.

(** ** [call_api] *)

Definition call_api (url mdl : string) (messages : list message)
    (temp : float) (tmo : Z) (net : result response) : request * result json :=
  let payload :=
    {| req_url := url; req_model := mdl; req_messages := messages;
       req_temperature := temp; req_timeout := tmo |} in
  (payload,
   resp <~ net ;;
   if bool_decide (status_code resp <> 200) then
     Raise (RuntimeError
              ("HTTP " +:+ pretty (status_code resp) +:+ ": " +:+ text resp))
   else
     data <~ json_body resp ;;
     match extract_reply data with
     | Some content => Ok content
     | None =>
         Raise (RuntimeError
                  ("Unexpected response format: " +:+ json_dumps_indent2 data))
     end).

(** ** [save_transcript] *)

(** [m.get("role", "?").capitalize()] *)
Definition role_label (m : message) : result string :=
  match dict_get m "role" (JStr "?") with
  | JStr r => Ok (capitalize r)
  | v => Raise (AttributeError
                  ("'" +:+ py_type_name v +:+ "' object has no attribute 'capitalize'"))
  end.

(** What one pass of the [for] loop writes. *)
Definition transcript_entry (m : message) : result string :=
  role <~ role_label m ;;
  let content := dict_get m "content" (JStr "") in
  Ok (role +:+ ": " +:+ py_str content +:+ newline +:+ newline).

(** Everything the [for] loop writes. *)
Fixpoint transcript_text (history : list message) : result string :=
  match history with
  | [] => Ok ""
  | m :: rest =>
      e <~ transcript_entry m ;;
      t <~ transcript_text rest ;;
      Ok (e +:+ t)
  end.

(** Returns the resolved path and the contents of the file, for a text
    that UTF-8 can encode; [save_transcript_utf8] below is the function
    with the failure of [f.write]. *)
Definition save_transcript (w : world) (history : list message) (path : string)
  : result (string * string) :=
  let path' := resolve w path in
  match fs_error w with
  | Some msg => Raise (LibraryError msg)
  | None =>
      t <~ transcript_text history ;;
      Ok (path', t)
  end.

(** ** The loop of [main] *)

(** What [main] fixes before the loop: the parsed arguments, and the
    endpoint and model name it got from them and from the environment. *)
Record config : Type := {
  cfg_args : args;
  cfg_url : string;
  cfg_model : string
}.

Definition bye : string := "Bye! 🧽".

Definition help_text : list event :=
  [ Print "Commands:";
    Print "  :help                Show this help";
    Print "  :reset               Clear history (keep system prompt)";
    Print "  :save                Save transcript to a file (txt)";
    Print "  :quit / :q / :exit   Exit the chatbot" ].

(** The branch [if user.startswith(":")]. *)
Definition run_command (w : world) (history : list message) (user : string)
  : result outcome :=
  let parts := split_maxsplit1 user in
  p0 <~ py_getitem parts 0 ;;
  let cmd := lower p0 in
  arg <~ (if bool_decide (Z.of_nat (length parts) > 1)
          then py_getitem parts 1 else Ok "") ;;
  if bool_decide (cmd ∈ ([":quit"; ":q"; ":exit"] : list string)) then
    Ok {| out_history := history; out_events := [Print bye];
          out_control := Break |}
  else if bool_decide (cmd = ":help") then
    Ok {| out_history := history; out_events := help_text;
          out_control := Continue |}
  else if bool_decide (cmd = ":reset") then
    h0 <~ py_getitem history 0 ;;
    Ok {| out_history := [h0];
          out_events := [Print "History cleared (system prompt kept)."];
          out_control := Continue |}
  else if bool_decide (cmd = ":save") then
    let default_name := "spongebob_chat_" +:+ now_stamp w +:+ ".txt" in
    let path := if is_empty arg then default_name else arg in
    saved <~ save_transcript w history path ;;
    Ok {| out_history := history;
          out_events := [FileWrite saved.1 saved.2;
                         Print ("Saved transcript to: " +:+ saved.1)];
          out_control := Continue |}
  else
    Ok {| out_history := history;
          out_events := [Print ("Unknown command: " +:+ cmd +:+ ". Type :help")];
          out_control := Continue |}.

(** The part of the loop body under [# Normal chat turn]. *)
Definition chat_turn (c : config) (w : world) (history : list message)
    (user : string) : result outcome :=
  let history1 := history ++ [mk_message "user" (JStr user)] in
  trimmed <~ truncate_history history1 (max_turns (cfg_args c)) ;;
  let '(req, res) :=
    call_api (cfg_url c) (cfg_model c) trimmed
             (temperature (cfg_args c)) (timeout (cfg_args c))
             (post_outcome w) in
  match res with
  | Raise e =>
      Ok {| out_history :=
              history1 ++
              [mk_message "assistant" (JStr ("(Error: " +:+ exn_str e +:+ ")"))];
            out_events := [HttpPost req;
                           Print ("SpongeBob (error): " +:+ exn_str e)];
            out_control := Continue |}
  | Ok reply =>
      Ok {| out_history := history1 ++ [mk_message "assistant" reply];
            out_events := [HttpPost req; Print ("SpongeBob: " +:+ py_str reply)];
            out_control := Continue |}
  end.

(** One iteration of [while True], from the return of [input("You: ")]
    on; the outer [except Exception] turns a raised exception into
    [sys.exit(1)].  Every [print] is taken to succeed; [step_io] below is
    the iteration on a terminal where it can raise. *)
Definition step (c : config) (history : list message) (inp : input_event)
    (w : world) : outcome :=
  match inp with
  | Interrupted =>
      {| out_history := history; out_events := [Print (newline +:+ bye)];
         out_control := Break |}
  | Line raw =>
      let user := strip raw in
      if is_empty user then
        {| out_history := history; out_events := []; out_control := Continue |}
      else
        let r := if startswith ":" user then run_command w history user
                 else chat_turn c w history user in
        match r with
        | Ok o => o
        | Raise e =>
            {| out_history := history;
               out_events := [Print ("Fatal error: " +:+ exn_str e)];
               out_control := Exit1 |}
        end
  end.

(** The histories the loop can hold when it asks for the next line. *)
Inductive reachable (c : config) : list message -> Prop :=
| reachable_init : reachable c (initial_history (cfg_args c))
| reachable_step (h : list message) (inp : input_event) (w : world) :
    reachable c h ->
    out_control (step c h inp w) = Continue ->
    reachable c (out_history (step c h inp w)).

(** The loop run on a script of inputs, each with what the world does
    during that iteration; it stops at the first iteration that does not
    [continue]. *)
Fixpoint run (c : config) (history : list message)
    (script : list (input_event * world)) : list message * list event * control :=
  match script with
  | [] => (history, [], Continue)
  | (inp, w) :: rest =>
      let o := step c history inp w in
      match out_control o with
      | Continue =>
          let '(h, evs, ctl) := run c (out_history o) rest in
          (h, out_events o ++ evs, ctl)
      | ctl => (out_history o, out_events o, ctl)
      end
  end.

(** The message windows sent to the endpoint, oldest first. *)
Definition submitted (evs : list event) : list (list message) :=
  omap (fun e => match e with HttpPost r => Some (req_messages r) | _ => None end) evs.

(** The role and the content text a message is written with. *)
Definition role_text (m : message) : string :=
  match dict_get m "role" (JStr "?") with
  | JStr r => r
  | _ => EmptyString
  end.

Definition content_text (m : message) : string :=
  py_str (dict_get m "content" (JStr "")).

Definition written_pairs (history : list message) : list (string * string) :=
  map (fun m => (capitalize (role_text m), content_text m)) history.

(** Messages appended by chat turns. *)
Definition is_turn_message (m : message) : Prop :=
  m !! "role" = Some (JStr "user") \/ m !! "role" = Some (JStr "assistant").

Definition example_config : config :=
  {| cfg_args := example_args;
     cfg_url := "https://ai.sooners.us/api/chat/completions";
     cfg_model := "gemma3:4b" |}.

(** The part of [main] before the loop: settings from the command line
    over those of the environment, then the client.  An exception here is
    raised outside the [try] of [main]. *)
Definition main_setup (a : args) (env : environ)
  : result (config * gmap string string * list event) :=
  let '(api_key, env_base_url, env_model) := load_env env in
  let base := rstrip_chars "/" (py_or (base_url a) env_base_url) in
  let mdl := py_or (model a) env_model in
  client <~ make_client api_key base ;;
  Ok ({| cfg_args := a; cfg_url := client.2; cfg_model := mdl |},
      client.1,
      map Print (print_banner mdl base)).

(** The argument a command line carries: the second piece of the split. *)
Definition command_arg (raw : string) : string :=
  default "" (split_maxsplit1 (strip raw) !! 1%nat).

(** The line is a chat turn: not blank, not sigil-prefixed. *)
Definition is_chat_line (raw : string) : Prop :=
  is_empty (strip raw) = false /\ startswith ":" (strip raw) = false.


(** The chain of tests of [run_command] on a command word [cmd] and an
    argument [arg], once the line is split. *)
Definition dispatch (w : world) (history : list message) (cmd arg : string)
  : result outcome :=
  if bool_decide (cmd ∈ ([":quit"; ":q"; ":exit"] : list string)) then
    Ok {| out_history := history; out_events := [Print bye];
          out_control := Break |}
  else if bool_decide (cmd = ":help") then
    Ok {| out_history := history; out_events := help_text;
          out_control := Continue |}
  else if bool_decide (cmd = ":reset") then
    h0 <~ py_getitem history 0 ;;
    Ok {| out_history := [h0];
          out_events := [Print "History cleared (system prompt kept)."];
          out_control := Continue |}
  else if bool_decide (cmd = ":save") then
    let default_name := "spongebob_chat_" +:+ now_stamp w +:+ ".txt" in
    let path := if is_empty arg then default_name else arg in
    saved <~ save_transcript w history path ;;
    Ok {| out_history := history;
          out_events := [FileWrite saved.1 saved.2;
                         Print ("Saved transcript to: " +:+ saved.1)];
          out_control := Continue |}
  else
    Ok {| out_history := history;
          out_events := [Print ("Unknown command: " +:+ cmd +:+ ". Type :help")];
          out_control := Continue |}.


(** ** Output that fails *)

(** [save_transcript] opens the file with [encoding="utf-8"], and UTF-8
    proper cannot encode a code point from U+D800 to U+DFFF: [f.write]
    raises [UnicodeEncodeError] on a text that holds one.  In the encoding
    of this development such a code point is three bytes, the first [237]
    and the second [160] or more. *)
Fixpoint has_surrogate (s : string) : bool :=
  match s with
  | EmptyString => false
  | String a r =>
      match r with
      | EmptyString => false
      | String b _ =>
          ((N_of_ascii a =? 237) && (160 <=? N_of_ascii b))%N || has_surrogate r
      end
  end.

(** [str(e)] for the [UnicodeEncodeError] that encoding a text in UTF-8
    raises. *)
Variable encode_error : string -> string.

(** The [for] loop of [save_transcript] with its file: what it has written
    when it ends or when an exception stops it, and how it ends. *)
Fixpoint write_entries (history : list message) : string * result unit :=
  match history with
  | [] => (EmptyString, Ok tt)
  | m :: rest =>
      match transcript_entry m with
      | Raise e => (EmptyString, Raise e)
      | Ok entry =>
          if has_surrogate entry
          then (EmptyString, Raise (LibraryError (encode_error entry)))
          else
            let '(t, r) := write_entries rest in
            (entry +:+ t, r)
      end
  end.

(** [save_transcript] with its file: [None] when the file was not
    opened, else what the file holds in the end; and the resolved path
    returned, or the exception raised. *)
Definition save_transcript_utf8 (w : world) (history : list message)
    (path : string) : option string * result string :=
  match fs_error w with
  | Some msg => (None, Raise (LibraryError msg))
  | None =>
      let '(t, r) := write_entries history in
      (Some t, bind r (fun _ => Ok (resolve w path)))
  end.

(** How an iteration ends: [continue], [break], [sys.exit(1)], or an
    exception that leaves [main]. *)
Inductive ending : Type :=
| Continues
| Breaks
| Exits1
| Uncaught (e : exn).

Record outcome_io : Type := {
  end_history : list message;
  end_events : list event;
  end_how : ending
}.

(** [print] of each line in turn, up to the first that raises. *)
Fixpoint print_lines (t : terminal) (lines : list string)
  : list event * result unit :=
  match lines with
  | [] => ([], Ok tt)
  | line :: rest =>
      match print_error t line with
      | Some msg => ([], Raise (LibraryError msg))
      | None =>
          let '(evs, r) := print_lines t rest in
          (Print line :: evs, r)
      end
  end.

(** The handler [except Exception as e] at the end of [main], entered
    with history [history] after the events [evs]. *)
Definition fatal (t : terminal) (history : list message) (evs : list event)
    (e : exn) : outcome_io :=
  match print_error t ("Fatal error: " +:+ exn_str e) with
  | None =>
      {| end_history := history;
         end_events := evs ++ [Print ("Fatal error: " +:+ exn_str e)];
         end_how := Exits1 |}
  | Some msg =>
      {| end_history := history; end_events := evs;
         end_how := Uncaught (LibraryError msg) |}
  end.

(** The end of an iteration that, after the events [evs] and with history
    [before], prints [lines] and then goes on to [how] with history
    [after]. *)
Definition finish (t : terminal) (before after : list message)
    (evs : list event) (lines : list string) (how : ending) : outcome_io :=
  match print_lines t lines with
  | (evs', Ok _) =>
      {| end_history := after; end_events := evs ++ evs'; end_how := how |}
  | (evs', Raise e) => fatal t before (evs ++ evs') e
  end.

Definition help_lines : list string :=
  [ "Commands:";
    "  :help                Show this help";
    "  :reset               Clear history (keep system prompt)";
    "  :save                Save transcript to a file (txt)";
    "  :quit / :q / :exit   Exit the chatbot" ].

(** The chain of tests of the command branch, with output that can
    fail. *)
Definition dispatch_io (t : terminal) (w : world) (history : list message)
    (cmd arg : string) : outcome_io :=
  if bool_decide (cmd ∈ ([":quit"; ":q"; ":exit"] : list string)) then
    finish t history history [] [bye] Breaks
  else if bool_decide (cmd = ":help") then
    finish t history history [] help_lines Continues
  else if bool_decide (cmd = ":reset") then
    match py_getitem history 0 with
    | Raise e => fatal t history [] e
    | Ok h0 =>
        finish t [h0] [h0] [] ["History cleared (system prompt kept)."] Continues
    end
  else if bool_decide (cmd = ":save") then
    let default_name := "spongebob_chat_" +:+ now_stamp w +:+ ".txt" in
    let path := if is_empty arg then default_name else arg in
    match save_transcript_utf8 w history path with
    | (None, Raise e) => fatal t history [] e
    | (Some written, Raise e) =>
        fatal t history [FileWrite (resolve w path) written] e
    | (file, Ok saved) =>
        finish t history history [FileWrite saved (default "" file)]
               ["Saved transcript to: " +:+ saved] Continues
    end
  else
    finish t history history []
           ["Unknown command: " +:+ cmd +:+ ". Type :help"] Continues.

(** The branch [if user.startswith(":")], with output that can fail. *)
Definition run_command_io (t : terminal) (w : world) (history : list message)
    (user : string) : outcome_io :=
  let parts := split_maxsplit1 user in
  match py_getitem parts 0 with
  | Raise e => fatal t history [] e
  | Ok p0 =>
      let cmd := lower p0 in
      match (if bool_decide (Z.of_nat (length parts) > 1)
             then py_getitem parts 1 else Ok "") with
      | Raise e => fatal t history [] e
      | Ok arg => dispatch_io t w history cmd arg
      end
  end.

(** The chat turn, with output that can fail: both prints come before the
    assistant message is appended. *)
Definition chat_turn_io (t : terminal) (c : config) (w : world)
    (history : list message) (user : string) : outcome_io :=
  let history1 := history ++ [mk_message "user" (JStr user)] in
  match truncate_history history1 (max_turns (cfg_args c)) with
  | Raise e => fatal t history1 [] e
  | Ok trimmed =>
      let '(req, res) :=
        call_api (cfg_url c) (cfg_model c) trimmed
                 (temperature (cfg_args c)) (timeout (cfg_args c))
                 (post_outcome w) in
      match res with
      | Raise e =>
          finish t history1
                 (history1 ++
                  [mk_message "assistant"
                     (JStr ("(Error: " +:+ exn_str e +:+ ")"))])
                 [HttpPost req] ["SpongeBob (error): " +:+ exn_str e] Continues
      | Ok reply =>
          finish t history1 (history1 ++ [mk_message "assistant" reply])
                 [HttpPost req] ["SpongeBob: " +:+ py_str reply] Continues
      end
  end.

(** One iteration of [while True] with output that can fail, from the
    return of [input("You: ")] on. *)
Definition step_io (t : terminal) (c : config) (history : list message)
    (inp : input_event) (w : world) : outcome_io :=
  match inp with
  | Interrupted => finish t history history [] [newline +:+ bye] Breaks
  | Line raw =>
      let user := strip raw in
      if is_empty user then
        {| end_history := history; end_events := []; end_how := Continues |}
      else if startswith ":" user then run_command_io t w history user
      else chat_turn_io t c w history user
  end.

(** An outcome of the iteration whose output does not fail, as an outcome
    of the iteration whose output can. *)
Definition as_outcome_io (o : outcome) : outcome_io :=
  {| end_history := out_history o; end_events := out_events o;
     end_how := match out_control o with
                | Continue => Continues
                | Break => Breaks
                | Exit1 => Exits1
                end |}.

(** The original role and content of a message whose two fields are
    strings. *)
Definition message_pair (m : message) : option (string * string) :=
  match m !! "role", m !! "content" with
  | Some (JStr r), Some (JStr c) => Some (r, c)
  | _, _ => None
  end.

(** A role and a content that can be written and read back: no colon in
    the label, and in the entry no two newlines in a row, no newline at
    the end and no lone surrogate. *)
Definition readable (p : string * string) : bool :=
  negb (has_char ":" (capitalize p.1))
  && no_blank_line (capitalize p.1 +:+ ": " +:+ p.2)
  && negb (has_surrogate
             (capitalize p.1 +:+ ": " +:+ p.2 +:+ newline +:+ newline)).


(** A message [save_transcript] can write: its role is a string or is
    missing, and the entry written for it holds no lone surrogate. *)
Definition writable (m : message) : Prop :=
  exists entry, transcript_entry m = Ok entry /\ has_surrogate entry = false.

(** A terminal on which every [print] succeeds. *)
Definition prints_all (t : terminal) : Prop :=
  forall line, print_error t line = None.






(** The iteration did not reach the handler at the end of [main]. *)
Definition survives (o : outcome_io) : Prop :=
  end_how o = Continues \/ end_how o = Breaks.


(** * Properties *)

(** ** [truncate_history] *)

Lemma py_slice_from_1 {A : Type} (x : A) (l : list A) :
  py_slice_from (x :: l) 1 = l.
Proof.
  unfold py_slice_from, py_slice_bound.
  replace (Z.to_nat _) with 1%nat; [reflexivity|].
  cbn [length]. destruct (1 <? 0) eqn:E; lia.
Qed.

Lemma py_slice_to_1 {A : Type} (x : A) (l : list A) :
  py_slice_to (x :: l) 1 = [x].
Proof.
  unfold py_slice_to, py_slice_bound.
  replace (Z.to_nat _) with 1%nat; [reflexivity|].
  cbn [length]. destruct (1 <? 0) eqn:E; lia.
Qed.

Lemma py_slice_from_neg {A : Type} (l : list A) (n : Z) :
  0 < n -> n <= Z.of_nat (length l) ->
  py_slice_from l (- n) = drop (length l - Z.to_nat n) l.
Proof.
  intros Hn Hle. unfold py_slice_from, py_slice_bound.
  f_equal. destruct (- n <? 0) eqn:E; lia.
Qed.

Lemma last_n_drop {A : Type} (n : nat) (l : list A) :
  last_n n l = drop (length l - n) l.
Proof.
  unfold last_n. rewrite take_reverse. apply reverse_involutive.
Qed.

Lemma last_n_all {A : Type} (n : nat) (l : list A) :
  (length l <= n)%nat -> last_n n l = l.
Proof.
  intros H. rewrite last_n_drop.
  replace (length l - n)%nat with 0%nat by lia. reflexivity.
Qed.

Lemma last_n_length {A : Type} (n : nat) (l : list A) :
  length (last_n n l) = Nat.min n (length l).
Proof. rewrite last_n_drop, length_drop. lia. Qed.

Lemma truncate_history_positive {A : Type} (sys : A) (rest : list A) (k : Z) :
  0 < k ->
  truncate_history (sys :: rest) k =
  Ok (sys :: last_n (Z.to_nat (Z.min (Z.of_nat (length rest)) (2 * k))) rest).
Proof.
  intros Hk. unfold truncate_history.
  rewrite bool_decide_eq_false_2 by lia.
  rewrite py_slice_from_1. cbn [py_getitem lookup list_lookup bind].
  do 2 f_equal. case_bool_decide as Hlen.
  - rewrite py_slice_from_neg by lia. rewrite last_n_drop.
    f_equal. lia.
  - symmetry. apply last_n_all. lia.
Qed.

Lemma truncate_history_cons_returns {A : Type} (x : A) (l : list A) (k : Z) :
  returns (truncate_history (x :: l) k).
Proof.
  unfold returns, truncate_history. case_bool_decide; eauto.
Qed.

(** ** [call_api] *)

Lemma call_api_request url mdl ms temp tmo net :
  (call_api url mdl ms temp tmo net).1 =
  {| req_url := url; req_model := mdl; req_messages := ms;
     req_temperature := temp; req_timeout := tmo |}.
Proof. reflexivity. Qed.

(** The reply or failure depends on the response only. *)
Lemma call_api_result_indep url mdl ms temp tmo url' mdl' ms' temp' tmo' net :
  (call_api url mdl ms temp tmo net).2 = (call_api url' mdl' ms' temp' tmo' net).2.
Proof. reflexivity. Qed.

(** ** Strings *)

Lemma append_cons (x : ascii) (a b : string) :
  String x a +:+ b = String x (a +:+ b).
Proof. reflexivity. Qed.

Lemma append_nil (b : string) : "" +:+ b = b.
Proof. reflexivity. Qed.

Lemma append_assoc (a b c : string) : (a +:+ b) +:+ c = a +:+ (b +:+ c).
Proof.
  induction a as [|x a IH]; [reflexivity|].
  rewrite !append_cons. now rewrite IH.
Qed.

Lemma append_empty_r (a : string) : a +:+ "" = a.
Proof.
  induction a as [|x a IH]; [reflexivity|].
  rewrite append_cons. now rewrite IH.
Qed.

Lemma contains_middle (a b c : string) : contains b (a +:+ b +:+ c).
Proof. exists a, c. reflexivity. Qed.



(** ** The loop *)

Lemma step_chat_line c h raw w :
  is_empty (strip raw) = false ->
  startswith ":" (strip raw) = false ->
  step c h (Line raw) w =
  match chat_turn c w h (strip raw) with
  | Ok o => o
  | Raise e =>
      {| out_history := h;
         out_events := [Print ("Fatal error: " +:+ exn_str e)];
         out_control := Exit1 |}
  end.
Proof. intros H1 H2. unfold step. now rewrite H1, H2. Qed.

Lemma step_command_line c h raw w :
  startswith ":" (strip raw) = true ->
  step c h (Line raw) w =
  match run_command w h (strip raw) with
  | Ok o => o
  | Raise e =>
      {| out_history := h;
         out_events := [Print ("Fatal error: " +:+ exn_str e)];
         out_control := Exit1 |}
  end.
Proof.
  intros H. unfold step. rewrite H.
  destruct (strip raw); [discriminate | reflexivity].
Qed.

(** A chat turn sends the truncated history and appends two messages. *)
Lemma chat_turn_outcome c w h user :
  exists trimmed,
    truncate_history (h ++ [mk_message "user" (JStr user)])
                     (max_turns (cfg_args c)) = Ok trimmed /\
    let net := (call_api (cfg_url c) (cfg_model c) trimmed
                         (temperature (cfg_args c)) (timeout (cfg_args c))
                         (post_outcome w)) in
    chat_turn c w h user =
    Ok {| out_history :=
            h ++ [mk_message "user" (JStr user);
                  mk_message "assistant"
                    match net.2 with
                    | Ok reply => reply
                    | Raise e => JStr ("(Error: " +:+ exn_str e +:+ ")")
                    end];
          out_events :=
            [HttpPost net.1;
             Print match net.2 with
                   | Ok reply => "SpongeBob: " +:+ py_str reply
                   | Raise e => "SpongeBob (error): " +:+ exn_str e
                   end];
          out_control := Continue |}.
Proof.
  destruct (truncate_history_cons_returns
              (hd (mk_message "user" (JStr user)) (h ++ [mk_message "user" (JStr user)]))
              (tl (h ++ [mk_message "user" (JStr user)]))
              (max_turns (cfg_args c))) as [trimmed Ht].
  assert (Hcons : forall (l : list message) d m,
             hd d (l ++ [m]) :: tl (l ++ [m]) = l ++ [m])
    by (intros [|? ?] ? ?; reflexivity).
  rewrite Hcons in Ht. exists trimmed. split; [exact Ht|].
  unfold chat_turn. rewrite Ht. cbn [bind].
  destruct (call_api _ _ _ _ _ _) as [req res] eqn:E.
  cbn [fst snd]. destruct res; rewrite <- app_assoc; reflexivity.
Qed.

(** One iteration on a line that is a chat turn. *)
Lemma step_chat_outcome c h raw w :
  is_empty (strip raw) = false ->
  startswith ":" (strip raw) = false ->
  exists trimmed,
    truncate_history (h ++ [mk_message "user" (JStr (strip raw))])
                     (max_turns (cfg_args c)) = Ok trimmed /\
    let net := (call_api (cfg_url c) (cfg_model c) trimmed
                         (temperature (cfg_args c)) (timeout (cfg_args c))
                         (post_outcome w)) in
    step c h (Line raw) w =
    {| out_history :=
         h ++ [mk_message "user" (JStr (strip raw));
               mk_message "assistant"
                 match net.2 with
                 | Ok reply => reply
                 | Raise e => JStr ("(Error: " +:+ exn_str e +:+ ")")
                 end];
       out_events :=
         [HttpPost net.1;
          Print match net.2 with
                | Ok reply => "SpongeBob: " +:+ py_str reply
                | Raise e => "SpongeBob (error): " +:+ exn_str e
                end];
       out_control := Continue |}.
Proof.
  intros H1 H2.
  destruct (chat_turn_outcome c w h (strip raw)) as (trimmed & Ht & Hc).
  exists trimmed. split; [exact Ht|].
  cbv zeta in *. rewrite step_chat_line by assumption. now rewrite Hc.
Qed.

(** C1. With a positive pair limit [k] and [n] messages after the system
    message, [truncate_history] returns the system message followed by
    the last [min n (2k)] of them in their original order, which is all
    of them when [n < 2k].  With a limit of one pair, the second of two
    chat turns "hi" and "bye" submits the system message, the first
    reply and the user message "bye". *)
Theorem truncate_history_keeps_last_pairs :
  (forall (A : Type) (sys : A) (rest : list A) (k : Z),
      0 < k ->
      let kept := last_n (Z.to_nat (Z.min (Z.of_nat (length rest)) (2 * k))) rest in
      truncate_history (sys :: rest) k = Ok (sys :: kept)
      /\ Z.of_nat (length kept) = Z.min (Z.of_nat (length rest)) (2 * k)
      /\ (exists older, rest = older ++ kept)
      /\ (Z.of_nat (length rest) < 2 * k -> kept = rest))
  /\
  (forall (c : config) (w1 w2 : world) (reply1 : json)
          url mdl ms temp tmo,
      max_turns (cfg_args c) = 1 ->
      (call_api url mdl ms temp tmo (post_outcome w1)).2 = Ok reply1 ->
      submitted
        (run c (initial_history (cfg_args c))
             [(Line "hi", w1); (Line "bye", w2)]).1.2
      = [ [system_message (cfg_args c); mk_message "user" (JStr "hi")];
          [system_message (cfg_args c); mk_message "assistant" reply1;
           mk_message "user" (JStr "bye")] ]).
Proof.
  split.
  - intros A sys rest k Hk kept. subst kept.
    split; [now apply truncate_history_positive|].
    split; [rewrite last_n_length; lia|].
    split.
    + rewrite last_n_drop. eexists. symmetry. apply take_drop.
    + intros Hlt. apply last_n_all. lia.
  - intros c w1 w2 reply1 url mdl ms temp tmo Hk Hcall.
    unfold run, initial_history.
    destruct (step_chat_outcome c [system_message (cfg_args c)] "hi" w1)
      as (t1 & Ht1 & E1); [reflexivity | reflexivity |].
    cbv zeta in E1. rewrite E1. clear E1. cbn [out_control out_history out_events].
    rewrite (call_api_result_indep _ _ _ _ _ url mdl ms temp tmo), Hcall.
    match goal with
    | |- context [step c ?h (Line "bye") w2] =>
        destruct (step_chat_outcome c h "bye" w2)
          as (t2 & Ht2 & E2); [reflexivity | reflexivity |]
    end.
    cbv zeta in E2. rewrite E2. clear E2. cbn [out_control out_history out_events].
    change (strip "hi") with "hi" in *. change (strip "bye") with "bye" in *.
    rewrite Hk in Ht1, Ht2.
    set (sys := system_message (cfg_args c)) in *.
    set (u1 := mk_message "user" (JStr "hi")) in *.
    set (a1 := mk_message "assistant" reply1) in *.
    set (u2 := mk_message "user" (JStr "bye")) in *.
    clearbody sys u1 a1 u2.
    cbn [app] in Ht1, Ht2.
    rewrite truncate_history_positive in Ht1, Ht2 by lia.
    injection Ht1 as <-. injection Ht2 as <-.
    reflexivity.
Qed.

(** C2. With a pair limit that is zero or negative, [truncate_history]
    returns the system message alone. *)
Theorem truncate_history_nonpositive
    {A : Type} (sys : A) (rest : list A) (max_pairs : Z) :
  max_pairs <= 0 ->
  truncate_history (sys :: rest) max_pairs = Ok [sys].
Proof.
  intros Hk. unfold truncate_history.
  rewrite bool_decide_eq_true_2 by assumption.
  now rewrite py_slice_to_1.
Qed.

(** C9. On a non-empty list [truncate_history] returns a value for every
    pair limit; on the empty list it returns exactly when the limit is
    zero or negative, and raises [IndexError] otherwise. *)
Theorem truncate_history_total_on_nonempty :
  (forall (A : Type) (history : list A) (max_pairs : Z),
      history <> [] -> returns (truncate_history history max_pairs))
  /\
  (forall (A : Type) (max_pairs : Z),
      (returns (truncate_history (@nil A) max_pairs) <-> max_pairs <= 0)
      /\ (0 < max_pairs ->
          truncate_history (@nil A) max_pairs =
          Raise (IndexError "list index out of range"))).
Proof.
  split.
  - intros A [|x l] k Hne; [congruence|].
    apply truncate_history_cons_returns.
  - intros A k. unfold returns, truncate_history.
    case_bool_decide as Hk; cbn.
    + split; [|lia]. split; [tauto | eauto].
    + split; [|reflexivity]. split; [|lia].
      intros [a Ha]. discriminate.
Qed.

(** ** Failed turns *)


(** C4, amended.  [call_api] treats status 200, and no other, as success:
    it then returns the reply extracted from the JSON body, or fails on a
    body without one.  Every other status, the other 2xx ones included,
    is a failure whose message carries the status code and the raw
    response body. *)
Theorem call_api_succeeds_on_200_only
    url mdl ms temp tmo (resp : response) :
  (status_code resp = 200 ->
   forall data, json_body resp = Ok data ->
     (forall content, extract_reply data = Some content ->
        (call_api url mdl ms temp tmo (Ok resp)).2 = Ok content)
     /\ (extract_reply data = None ->
           (call_api url mdl ms temp tmo (Ok resp)).2 =
           Raise (RuntimeError
                    ("Unexpected response format: " +:+ json_dumps_indent2 data))))
  /\
  (status_code resp <> 200 ->
   let msg := "HTTP " +:+ pretty (status_code resp) +:+ ": " +:+ text resp in
   (call_api url mdl ms temp tmo (Ok resp)).2 = Raise (RuntimeError msg)
   /\ contains (pretty (status_code resp)) msg
   /\ contains (text resp) msg).
Proof using json_dumps_indent2.
  unfold call_api. cbn [snd bind]. split.
  - intros H200 data Hdata.
    rewrite bool_decide_eq_false_2 by (intros Hc; exact (Hc H200)).
    rewrite Hdata. cbn [bind].
    split; [intros content ->; reflexivity | intros ->; reflexivity].
  - intros Hne. cbv zeta.
    rewrite bool_decide_eq_true_2 by assumption.
    split; [reflexivity|]. split.
    + apply contains_middle.
    + exists ("HTTP " +:+ pretty (status_code resp) +:+ ": "), "".
      rewrite append_empty_r, !append_assoc. reflexivity.
Qed.

(** ** The system message *)

(** The conditional expression that computes [arg] never raises. *)
Lemma command_arg_returns (parts : list string) :
  exists arg,
    (if bool_decide (Z.of_nat (length parts) > 1)
     then py_getitem parts 1 else Ok "") = Ok arg.
Proof.
  case_bool_decide as Hlen; [|eauto].
  destruct parts as [|p0 [|p1 l]]; cbn in Hlen; try lia.
  eexists. reflexivity.
Qed.

(** What one iteration can do to the history: nothing, cut it down to its
    first message, or append a user and an assistant message. *)
Lemma step_history_shape c h inp w :
  out_history (step c h inp w) = h
  \/ (exists h0, h !! 0%nat = Some h0 /\ out_history (step c h inp w) = [h0])
  \/ (exists u a,
         out_history (step c h inp w) =
         h ++ [mk_message "user" (JStr u); mk_message "assistant" a]).
Proof.
  destruct inp as [raw|]; [|left; reflexivity].
  destruct (is_empty (strip raw)) eqn:Hemp.
  { left. unfold step. now rewrite Hemp. }
  destruct (startswith ":" (strip raw)) eqn:Hcmd.
  - rewrite step_command_line by assumption.
    unfold run_command.
    destruct (py_getitem (split_maxsplit1 (strip raw)) 0) as [p0|e];
      [|left; reflexivity].
    cbn [bind].
    destruct (command_arg_returns (split_maxsplit1 (strip raw))) as [arg ->].
    cbn [bind].
    repeat case_bool_decide; try (left; reflexivity).
    + unfold py_getitem. destruct (h !! 0%nat) as [h0|] eqn:Hh0.
      * right. left. exists h0. split; reflexivity.
      * left. reflexivity.
    + destruct (save_transcript _ _ _); left; reflexivity.
  - destruct (step_chat_outcome c h raw w Hemp Hcmd) as (trimmed & _ & E).
    cbv zeta in E. rewrite E. right. right. eexists _, _. reflexivity.
Qed.

Lemma mk_message_role (r : string) (v : json) :
  mk_message r v !! "role" = Some (JStr r).
Proof. reflexivity. Qed.

Lemma mk_message_content (r : string) (v : json) :
  mk_message r v !! "content" = Some v.
Proof. reflexivity. Qed.

Lemma reachable_shape c h :
  reachable c h ->
  exists rest,
    h = system_message (cfg_args c) :: rest /\ Forall is_turn_message rest.
Proof.
  induction 1 as [|h inp w Hr (rest & -> & Hrest) Hctl].
  - exists []. split; [reflexivity | constructor].
  - destruct (step_history_shape c (system_message (cfg_args c) :: rest) inp w)
      as [-> | [(h0 & Hh0 & ->) | (u & a & ->)]].
    + exists rest. split; [reflexivity | assumption].
    + cbn in Hh0. injection Hh0 as <-. exists []. split; [reflexivity | constructor].
    + exists (rest ++ [mk_message "user" (JStr u); mk_message "assistant" a]).
      split; [reflexivity|].
      apply Forall_app. split; [assumption|].
      constructor; [left; apply mk_message_role|].
      constructor; [right; apply mk_message_role|].
      constructor.
Qed.

(** C5. Every history the loop can reach starts with the system message,
    whose content is the configured system prompt, and holds no other
    message of role "system"; and no iteration of the loop, whatever the
    input and whatever the world does, removes or changes the first
    message of the history. *)
Theorem system_message_stays_first (c : config) :
  (forall h, reachable c h ->
      h !! 0%nat = Some (system_message (cfg_args c))
      /\ Forall is_turn_message (tail h))
  /\ system_message (cfg_args c) !! "role" = Some (JStr "system")
  /\ system_message (cfg_args c) !! "content" =
     Some (JStr (system_prompt (cfg_args c)))
  /\ (forall h s inp w,
         h !! 0%nat = Some s ->
         out_history (step c h inp w) !! 0%nat = Some s).
Proof.
  split; [|split; [|split]].
  - intros h Hr. destruct (reachable_shape c h Hr) as (rest & -> & Hrest).
    split; [reflexivity | exact Hrest].
  - apply mk_message_role.
  - apply mk_message_content.
  - intros h s inp w Hs.
    destruct (step_history_shape c h inp w)
      as [-> | [(h0 & Hh0 & ->) | (u & a & ->)]].
    + exact Hs.
    + rewrite Hs in Hh0. injection Hh0 as <-. reflexivity.
    + apply lookup_app_l_Some. exact Hs.
Qed.

(** ** Commands *)

Lemma command_word_parts raw cmd :
  command_word raw = Some cmd ->
  startswith ":" (strip raw) = true
  /\ exists p0, split_maxsplit1 (strip raw) !! 0%nat = Some p0 /\ lower p0 = cmd.
Proof.
  unfold command_word.
  destruct (startswith ":" (strip raw)); [|discriminate].
  destruct (split_maxsplit1 (strip raw) !! 0%nat) as [p0|]; [|discriminate].
  cbn. intros [= <-]. eauto.
Qed.

(** C6. From any history the loop can hold, the reset command leaves
    exactly one message, the system message the session started with,
    and the loop continues. *)
Theorem reset_keeps_only_system_message
    (c : config) (h : list message) (raw : string) (w : world) :
  reachable c h ->
  command_word raw = Some ":reset" ->
  step c h (Line raw) w =
  {| out_history := [system_message (cfg_args c)];
     out_events := [Print "History cleared (system prompt kept)."];
     out_control := Continue |}
  /\ initial_history (cfg_args c) = [system_message (cfg_args c)].
Proof.
  intros Hr Hcmd. split; [|reflexivity].
  destruct (reachable_shape c h Hr) as (rest & -> & _).
  destruct (command_word_parts raw _ Hcmd) as (Hsig & p0 & Hp0 & Hlow).
  rewrite step_command_line by assumption.
  unfold run_command, py_getitem at 1. rewrite Hp0. cbn [bind].
  destruct (command_arg_returns (split_maxsplit1 (strip raw))) as [arg ->].
  cbn [bind]. rewrite Hlow. reflexivity.
Qed.

Lemma all_space_lstrip (s : string) : all_space s = true -> lstrip s = "".
Proof.
  induction s as [s IH] using (induction_ltof1 _ String.length).
  unfold ltof in IH. destruct s as [|a r1]; [reflexivity|].
  cbn [all_space lstrip].
  destruct (space_len (String a r1)) as [|[|[|[|n]]]]; try discriminate.
  - apply IH. cbn. lia.
  - destruct r1 as [|b r2]; [discriminate|]. apply IH. cbn. lia.
  - destruct r1 as [|b [|d r3]]; try discriminate. apply IH. cbn. lia.
Qed.

(** C7. On a line that is empty or whitespace only, an iteration leaves
    the history as it is, prints nothing, sends no request, writes no
    file, and the loop continues.  As nothing is printed, this is so on
    every terminal. *)
Theorem blank_line_is_ignored
    (c : config) (h : list message) (raw : string) (w : world) :
  all_space raw = true ->
  step c h (Line raw) w =
  {| out_history := h; out_events := []; out_control := Continue |}
  /\ forall t,
       step_io t c h (Line raw) w =
       {| end_history := h; end_events := []; end_how := Continues |}.
Proof.
  intros Hsp. unfold step, step_io, strip.
  rewrite all_space_lstrip by assumption. split; reflexivity.
Qed.

(** ** Case of the command keyword *)

Lemma startswith_colon (s : string) :
  startswith ":" s = true <-> exists r, s = String ":" r.
Proof.
  unfold startswith. destruct s as [|x r]; cbn [String.prefix].
  - split; [discriminate | intros [? H]; discriminate H].
  - destruct (ascii_dec ":" x) as [Hx|Hx].
    + subst x. destruct r; split; eauto.
    + split; [discriminate | intros [? H]; congruence].
Qed.

(** A colon starts no whitespace character. *)
Lemma space_len_colon (r : string) : space_len (String ":" r) = 0%nat.
Proof. destruct r as [|b [|d r]]; reflexivity. Qed.

(** A sigil-prefixed line has a first token. *)
Lemma sigil_first_token (raw : string) :
  startswith ":" (strip raw) = true ->
  exists p0, split_maxsplit1 (strip raw) !! 0%nat = Some p0.
Proof.
  intros Hsig. apply startswith_colon in Hsig as [r Hr]. rewrite Hr.
  unfold split_maxsplit1. cbn [lstrip]. rewrite space_len_colon.
  cbn [is_empty].
  destruct (span_token (String ":" r)) as [tok rest].
  destruct (is_empty (lstrip rest)); eexists; reflexivity.
Qed.

Lemma command_arg_value (parts : list string) :
  (if bool_decide (Z.of_nat (length parts) > 1)
   then py_getitem parts 1 else Ok "") = Ok (default "" (parts !! 1%nat)).
Proof.
  destruct parts as [|p0 [|p1 l]]; case_bool_decide as Hlen;
    cbn in Hlen; try lia; reflexivity.
Qed.

(** An iteration on a sigil-prefixed line is the chain of tests on its
    first token, lower-cased, and on its argument. *)
Lemma step_first_token c h raw w p0 :
  startswith ":" (strip raw) = true ->
  split_maxsplit1 (strip raw) !! 0%nat = Some p0 ->
  step c h (Line raw) w =
  match dispatch w h (lower p0) (command_arg raw) with
  | Ok o => o
  | Raise e =>
      {| out_history := h;
         out_events := [Print ("Fatal error: " +:+ exn_str e)];
         out_control := Exit1 |}
  end.
Proof.
  intros Hsig Hp0. rewrite step_command_line by assumption.
  unfold run_command, py_getitem at 1. rewrite Hp0. cbn [bind].
  rewrite command_arg_value. reflexivity.
Qed.

Lemma step_io_command_line t c h raw w :
  startswith ":" (strip raw) = true ->
  step_io t c h (Line raw) w = run_command_io t w h (strip raw).
Proof.
  intros H. unfold step_io. rewrite H.
  destruct (strip raw); [discriminate | reflexivity].
Qed.

Lemma step_io_first_token t c h raw w p0 :
  startswith ":" (strip raw) = true ->
  split_maxsplit1 (strip raw) !! 0%nat = Some p0 ->
  step_io t c h (Line raw) w = dispatch_io t w h (lower p0) (command_arg raw).
Proof.
  intros Hsig Hp0. rewrite step_io_command_line by assumption.
  unfold run_command_io, py_getitem at 1. rewrite Hp0.
  rewrite command_arg_value. reflexivity.
Qed.

(** C10. Command keywords are matched without regard to case.  On every
    sigil-prefixed line the first token is lower-cased, and the
    lower-cased word decides what the iteration does: ":quit", ":q" and
    ":exit" print the farewell and end the loop, ":help" prints the help,
    ":reset" cuts the history down to its first message; and two lines
    whose first tokens differ in case only, with the same argument, make
    the iteration do exactly the same thing, on every terminal.  Since [str.lower] lowers
    ASCII letters, ":QUIT", ":Help" and ":Reset" do what ":quit", ":help"
    and ":reset" do. *)
Theorem command_keyword_ignores_case
    (c : config) (h : list message) (w : world) :
  (forall raw,
      startswith ":" (strip raw) = true ->
      exists p0,
        split_maxsplit1 (strip raw) !! 0%nat = Some p0
        /\ command_word raw = Some (lower p0)
        /\ (lower p0 ∈ ([":quit"; ":q"; ":exit"] : list string) ->
            step c h (Line raw) w =
            {| out_history := h; out_events := [Print bye];
               out_control := Break |})
        /\ (lower p0 = ":help" ->
            step c h (Line raw) w =
            {| out_history := h; out_events := help_text;
               out_control := Continue |})
        /\ (lower p0 = ":reset" ->
            forall h0 rest, h = h0 :: rest ->
            step c h (Line raw) w =
            {| out_history := [h0];
               out_events := [Print "History cleared (system prompt kept)."];
               out_control := Continue |})
        /\ (forall raw' p0',
               startswith ":" (strip raw') = true ->
               split_maxsplit1 (strip raw') !! 0%nat = Some p0' ->
               lower p0' = lower p0 ->
               command_arg raw' = command_arg raw ->
               step c h (Line raw') w = step c h (Line raw) w)
        /\ (forall t raw' p0',
               startswith ":" (strip raw') = true ->
               split_maxsplit1 (strip raw') !! 0%nat = Some p0' ->
               lower p0' = lower p0 ->
               command_arg raw' = command_arg raw ->
               step_io t c h (Line raw') w = step_io t c h (Line raw) w))
  /\ ((forall s, is_ascii s = true -> lower s = ascii_lower s) ->
      step c h (Line ":QUIT") w =
      {| out_history := h; out_events := [Print bye]; out_control := Break |}
      /\ step c h (Line ":Help") w =
         {| out_history := h; out_events := help_text;
            out_control := Continue |}
      /\ (forall h0 rest, h = h0 :: rest ->
          step c h (Line ":Reset") w =
          {| out_history := [h0];
             out_events := [Print "History cleared (system prompt kept)."];
             out_control := Continue |})
      /\ step c h (Line ":QUIT") w = step c h (Line ":quit") w
      /\ step c h (Line ":Help") w = step c h (Line ":help") w
      /\ step c h (Line ":Reset") w = step c h (Line ":reset") w).
Proof.
  split.
  - intros raw Hsig. destruct (sigil_first_token raw Hsig) as [p0 Hp0].
    exists p0. split; [exact Hp0|].
    split; [unfold command_word; now rewrite Hsig, Hp0|].
    rewrite (step_first_token c h raw w p0 Hsig Hp0). unfold dispatch.
    split; [|split; [|split; [|split]]].
    + intros Hq. now rewrite bool_decide_eq_true_2.
    + intros ->. reflexivity.
    + intros -> h0 rest ->. reflexivity.
    + intros raw' p0' Hsig' Hp0' Hlow Harg.
      rewrite (step_first_token c h raw' w p0' Hsig' Hp0').
      unfold dispatch. now rewrite Hlow, Harg.
    + intros t raw' p0' Hsig' Hp0' Hlow Harg.
      rewrite (step_io_first_token t c h raw' w p0' Hsig' Hp0'),
              (step_io_first_token t c h raw w p0 Hsig Hp0).
      now rewrite Hlow, Harg.
  - intros Hascii.
    assert (Hstep : forall word : string,
               is_ascii word = true ->
               strip word = word ->
               split_maxsplit1 word = [word] ->
               startswith ":" word = true ->
               step c h (Line word) w =
               match dispatch w h (ascii_lower word) "" with
               | Ok o => o
               | Raise e =>
                   {| out_history := h;
                      out_events := [Print ("Fatal error: " +:+ exn_str e)];
                      out_control := Exit1 |}
               end).
    { intros word Ha Hs Hsp Hsig.
      rewrite (step_first_token c h word w word);
        [| now rewrite Hs | now rewrite Hs, Hsp].
      unfold command_arg. rewrite Hs, Hsp, (Hascii word Ha). reflexivity. }
    rewrite !Hstep by reflexivity.
    repeat split; try reflexivity.
    intros h0 rest ->. reflexivity.
Qed.

(** ** Transcripts *)

Lemma split_blank_other (c : ascii) (r : string) :
  Ascii.eqb c "010" = false ->
  split_blank (String c r) =
  match split_blank r with
  | e :: es => String c e :: es
  | [] => [String c EmptyString]
  end.
Proof.
  intros Hc. destruct r as [|c2 r2]; cbn [split_blank]; rewrite ?Hc; reflexivity.
Qed.

(** An entry without a blank line, followed by a blank line, is split off
    whole. *)
Lemma split_blank_entry (e t : string) :
  no_blank_line e = true ->
  split_blank (e +:+ newline +:+ newline +:+ t) = e :: split_blank t.
Proof.
  intros He. induction e as [|c e IH]; [reflexivity|].
  destruct e as [|c2 e].
  - cbn in He. apply negb_true_iff in He.
    rewrite append_cons, split_blank_other by assumption. reflexivity.
  - cbn [no_blank_line] in He. apply andb_true_iff in He as [Hc He].
    apply negb_true_iff in Hc. specialize (IH He).
    rewrite !append_cons in *. cbn [split_blank]. rewrite Hc.
    cbn [split_blank] in IH. now rewrite IH.
Qed.

Lemma split_colon_label (l rest : string) :
  has_char ":" l = false ->
  split_colon (l +:+ String ":" rest) = Some (l, rest).
Proof.
  intros Hl. induction l as [|c l IH].
  - reflexivity.
  - cbn in Hl. apply orb_false_iff in Hl as [Hc Hl].
    rewrite append_cons. cbn. rewrite Hc. now rewrite (IH Hl).
Qed.

Lemma parse_entry_written (l content : string) :
  has_char ":" l = false ->
  parse_entry (l +:+ ": " +:+ content) = Some (l, content).
Proof.
  intros Hl. unfold parse_entry.
  change (l +:+ ": " +:+ content) with (l +:+ String ":" (String " " content)).
  now rewrite split_colon_label.
Qed.

Lemma message_pair_entry (m : message) (r c : string) :
  message_pair m = Some (r, c) ->
  transcript_entry m =
  Ok (capitalize r +:+ ": " +:+ c +:+ newline +:+ newline).
Proof.
  unfold message_pair, transcript_entry, role_label, dict_get.
  destruct (m !! "role") as [[| | | |r'| |]|]; try discriminate.
  destruct (m !! "content") as [[| | | |c'| |]|]; try discriminate.
  intros [= -> ->]. reflexivity.
Qed.

(** C8, amended.  When every message has a string role and a string
    content, the capitalised role holds no colon, and the entry written
    for it (label, colon, space, content) holds no two newlines in a row,
    no newline at its end and no lone surrogate, [save_transcript] returns
    and reading back what it wrote yields one pair per message, in order:
    the original role, capitalised, and the original content. *)
Theorem transcript_round_trip
    (w : world) (history : list message) (path : string)
    (originals : list (string * string)) :
  fs_error w = None ->
  Forall2 (fun m p => message_pair m = Some p /\ readable p = true)
          history originals ->
  exists contents,
    save_transcript_utf8 w history path = (Some contents, Ok (resolve w path))
    /\ save_transcript w history path = Ok (resolve w path, contents)
    /\ parse_transcript contents =
       Some (map (fun p => (capitalize p.1, p.2)) originals)
    /\ length originals = length history.
Proof.
  intros Hfs Hall. unfold save_transcript_utf8, save_transcript. rewrite Hfs.
  assert (Htext : exists t,
             transcript_text history = Ok t
             /\ write_entries history = (t, Ok tt)
             /\ parse_transcript t =
                Some (map (fun p => (capitalize p.1, p.2)) originals)).
  { induction Hall as [|m [r c] rest ps [Hm Hread] _ (t & Ht & Hw & Hparse)].
    - exists "". repeat split; reflexivity.
    - unfold readable in Hread. cbn [fst snd] in Hread.
      apply andb_true_iff in Hread as [Hread Hsur].
      apply andb_true_iff in Hread as [Hcolon Hblank].
      apply negb_true_iff in Hcolon, Hsur.
      pose proof (message_pair_entry m r c Hm) as He.
      eexists. cbn [transcript_text write_entries].
      rewrite He, Ht, Hsur, Hw. cbn [bind].
      split; [reflexivity|]. split; [reflexivity|].
      unfold parse_transcript in *.
      rewrite <- (append_assoc (capitalize r)),
              <- (append_assoc (capitalize r +:+ ": ")).
      rewrite !append_assoc.
      rewrite <- (append_assoc (capitalize r)),
              <- (append_assoc (capitalize r +:+ ": ")).
      rewrite split_blank_entry by (now rewrite append_assoc).
      cbn [parse_entries].
      replace (is_empty ((capitalize r +:+ ": ") +:+ c))
        with false by (now destruct (capitalize r)).
      rewrite append_assoc, parse_entry_written by assumption.
      rewrite Hparse. reflexivity. }
  destruct Htext as (t & -> & -> & Hparse). cbn [bind].
  exists t. split; [reflexivity|]. split; [reflexivity|].
  split; [exact Hparse|]. symmetry. eapply Forall2_length. exact Hall.
Qed.

(** * Further properties *)

(** ** [truncate_history], continued *)

Lemma truncate_history_system_only
    {A : Type} (x : A) (l : list A) (k : Z) :
  k <= 0 -> truncate_history (x :: l) k = Ok [x].
Proof.
  intros Hk. unfold truncate_history.
  rewrite bool_decide_eq_true_2 by assumption. now rewrite py_slice_to_1.
Qed.

(** X1. Truncating an already truncated history changes nothing. *)
Theorem truncate_history_idempotent
    {A : Type} (history trimmed : list A) (max_pairs : Z) :
  truncate_history history max_pairs = Ok trimmed ->
  truncate_history trimmed max_pairs = Ok trimmed.
Proof.
  intros H. destruct (decide (max_pairs <= 0)) as [Hk|Hk].
  - destruct history as [|x l].
    + unfold truncate_history in *.
      rewrite bool_decide_eq_true_2 in * by assumption.
      injection H as <-. reflexivity.
    + rewrite truncate_history_system_only in H by assumption.
      injection H as <-. now apply truncate_history_system_only.
  - destruct history as [|x l].
    + unfold truncate_history in H.
      rewrite bool_decide_eq_false_2 in H by assumption. discriminate.
    + rewrite truncate_history_positive in H by lia. injection H as <-.
      rewrite truncate_history_positive by lia. do 2 f_equal.
      apply last_n_all. rewrite last_n_length. lia.
Qed.

(** X2. Whatever the pair limit, the result is a subsequence of the
    history (nothing added, order kept), no longer than the history, and
    of at most [1 + 2 * max_pairs] messages (one when the limit is not
    positive). *)
Theorem truncate_history_bounded
    {A : Type} (history trimmed : list A) (max_pairs : Z) :
  truncate_history history max_pairs = Ok trimmed ->
  trimmed `sublist_of` history
  /\ (length trimmed <= length history)%nat
  /\ Z.of_nat (length trimmed) <= 1 + Z.max 0 (2 * max_pairs).
Proof.
  intros H.
  assert (Hsub : trimmed `sublist_of` history
                 /\ Z.of_nat (length trimmed) <= 1 + Z.max 0 (2 * max_pairs)).
  { destruct (decide (max_pairs <= 0)) as [Hk|Hk].
    - unfold truncate_history in H.
      rewrite bool_decide_eq_true_2 in H by assumption.
      injection H as <-. unfold py_slice_to. split; [apply sublist_take|].
      rewrite length_take. unfold py_slice_bound.
      destruct (1 <? 0) eqn:E; lia.
    - destruct history as [|x l].
      + unfold truncate_history in H.
        rewrite bool_decide_eq_false_2 in H by assumption. discriminate.
      + rewrite truncate_history_positive in H by lia. injection H as <-.
        split.
        * apply sublist_skip. rewrite last_n_drop. apply sublist_drop.
        * cbn [length]. rewrite last_n_length. lia. }
  destruct Hsub as [Hsub Hlen]. split; [exact Hsub|].
  split; [now apply sublist_length | exact Hlen].
Qed.


(** ** What a chat turn sends *)

(** A chat turn sends exactly one request, with the truncated history. *)
Lemma chat_turn_submits c h raw w :
  is_chat_line raw ->
  exists trimmed,
    truncate_history (h ++ [mk_message "user" (JStr (strip raw))])
                     (max_turns (cfg_args c)) = Ok trimmed
    /\ submitted (out_events (step c h (Line raw) w)) = [trimmed].
Proof.
  intros [Hne Hchat].
  destruct (step_chat_outcome c h raw w Hne Hchat) as (trimmed & Ht & E).
  exists trimmed. split; [exact Ht|]. cbv zeta in E. now rewrite E.
Qed.

(** X3. The one request of a chat turn carries the first message of the
    history first.  With a positive pair limit the message just typed
    comes last and at most [2 * max_turns] messages follow the first; with
    a limit that is zero or negative the request carries the first message
    only, without the message just typed. *)
Theorem chat_turn_window
    (c : config) (sys : message) (rest : list message) (raw : string)
    (w : world) :
  is_chat_line raw ->
  exists window,
    submitted (out_events (step c (sys :: rest) (Line raw) w)) = [window]
    /\ (0 < max_turns (cfg_args c) ->
        exists earlier,
          window = sys :: earlier ++ [mk_message "user" (JStr (strip raw))]
          /\ Z.of_nat (length earlier) < 2 * max_turns (cfg_args c)
          /\ earlier `suffix_of` rest)
    /\ (max_turns (cfg_args c) <= 0 -> window = [sys]).
Proof.
  intros Hline.
  destruct (chat_turn_submits c (sys :: rest) raw w Hline) as (window & Ht & Hs).
  exists window. split; [exact Hs|].
  cbn [app] in Ht. split.
  - intros Hk. rewrite truncate_history_positive in Ht by assumption.
    injection Ht as <-. rewrite last_n_drop, length_app. cbn [length].
    set (m := Z.to_nat _).
    assert (Hm : (1 <= m <= length rest + 1)%nat) by (subst m; lia).
    assert (Hm2 : Z.of_nat m <= 2 * max_turns (cfg_args c)) by (subst m; lia).
    exists (drop (length rest + 1 - m) rest).
    split; [|split].
    + rewrite drop_app_le by lia. reflexivity.
    + rewrite length_drop. lia.
    + apply suffix_drop.
  - intros Hk. rewrite truncate_history_system_only in Ht by assumption.
    now injection Ht as <-.
Qed.

(** ** The shape of the history *)

Lemma alternating_app (l : list message) (u a : message) :
  alternating l ->
  u !! "role" = Some (JStr "user") ->
  a !! "role" = Some (JStr "assistant") ->
  alternating (l ++ [u; a]).
Proof.
  intros Hl Hu Ha. revert Hl.
  induction l as [l IH] using (induction_ltof1 _ (@length message)).
  unfold ltof in IH.
  destruct l as [|x [|y l]]; cbn [app alternating].
  - auto.
  - intros [].
  - intros (Hx & Hy & Hl). repeat split; try assumption.
    apply IH; [cbn; lia | exact Hl].
Qed.

Lemma alternating_lookup (l : list message) (i : nat) (m : message) :
  alternating l ->
  l !! i = Some m ->
  m !! "role" = Some (JStr (if Nat.even i then "user" else "assistant")).
Proof.
  revert i.
  induction l as [l IH] using (induction_ltof1 _ (@length message)).
  unfold ltof in IH. intros i Hl Hi.
  destruct l as [|x [|y l]]; cbn [alternating] in Hl.
  - discriminate.
  - destruct Hl.
  - destruct Hl as (Hx & Hy & Hl).
    destruct i as [|[|i]]; cbn in Hi.
    + now injection Hi as <-.
    + now injection Hi as <-.
    + change (Nat.even (S (S i))) with (Nat.even i).
      apply (IH l); [cbn; lia | exact Hl | exact Hi].
Qed.

Lemma alternating_length (l : list message) :
  alternating l -> exists n, length l = (2 * n)%nat.
Proof.
  induction l as [l IH] using (induction_ltof1 _ (@length message)).
  unfold ltof in IH.
  destruct l as [|x [|y l]]; cbn [alternating].
  - exists 0%nat. reflexivity.
  - intros [].
  - intros (_ & _ & Hl). destruct (IH l) as [n Hn]; [cbn; lia | exact Hl |].
    exists (S n). cbn [length]. lia.
Qed.

Lemma reachable_alternating (c : config) (h : list message) :
  reachable c h -> alternating (tail h).
Proof.
  intros Hr. induction Hr as [|h inp w Hr IH Hctl]; [exact I|].
  destruct (reachable_shape c h Hr) as (rest & -> & _).
  destruct (step_history_shape c (system_message (cfg_args c) :: rest) inp w)
    as [-> | [(h0 & Hh0 & ->) | (u & a & ->)]].
  - exact IH.
  - exact I.
  - cbn [app tail] in *. apply alternating_app;
      [exact IH | apply mk_message_role | apply mk_message_role].
Qed.

(** X4. In every history the loop can reach, the messages after the system
    message come in pairs, a user message then an assistant message; so
    the history has odd length. *)
Theorem reachable_history_alternates (c : config) (h : list message) :
  reachable c h ->
  alternating (tail h)
  /\ exists turns, length h = (2 * turns + 1)%nat.
Proof.
  intros Hr. pose proof (reachable_alternating c h Hr) as Halt.
  split; [exact Halt|].
  destruct (reachable_shape c h Hr) as (rest & -> & _).
  destruct (alternating_length rest Halt) as [n Hn].
  exists n. cbn [length]. lia.
Qed.

(** X5. When a chat turn starts from a reachable history that already
    holds at least [max_turns] pairs, the window it sends is cut in the
    middle of a pair: after the system message comes an assistant
    message, whose user message is left out. *)
Theorem chat_turn_window_splits_pair
    (c : config) (h : list message) (raw : string) (w : world) :
  reachable c h ->
  is_chat_line raw ->
  0 < max_turns (cfg_args c) ->
  2 * max_turns (cfg_args c) < Z.of_nat (length h) ->
  exists reply later,
    submitted (out_events (step c h (Line raw) w)) =
    [system_message (cfg_args c) :: reply :: later]
    /\ reply !! "role" = Some (JStr "assistant")
    /\ Z.of_nat (length (reply :: later)) = 2 * max_turns (cfg_args c).
Proof.
  intros Hr Hline Hk Hlen.
  pose proof (reachable_alternating c h Hr) as Halt.
  destruct (reachable_shape c h Hr) as (rest & -> & _).
  cbn [tail length] in *.
  destruct (alternating_length rest Halt) as [n Hn].
  destruct (chat_turn_submits c (system_message (cfg_args c) :: rest) raw w Hline)
    as (window & Ht & Hs).
  cbn [app] in Ht. rewrite truncate_history_positive in Ht by assumption.
  injection Ht as <-. rewrite Hs. clear Hs.
  rewrite last_n_drop, length_app. cbn [length].
  set (k := max_turns (cfg_args c)) in *.
  replace (length rest + 1 - Z.to_nat (Z.min (Z.of_nat (length rest + 1)) (2 * k)))%nat
    with (2 * (n - Z.to_nat k) + 1)%nat by lia.
  set (j := (2 * (n - Z.to_nat k) + 1)%nat).
  assert (Hj : (j < length rest)%nat) by (subst j; lia).
  destruct (lookup_lt_is_Some_2 rest j Hj) as [reply Hreply].
  exists reply, (drop (S j) (rest ++ [mk_message "user" (JStr (strip raw))])).
  split; [|split].
  - do 2 f_equal. apply drop_S. now apply lookup_app_l_Some.
  - pose proof (alternating_lookup rest j reply Halt Hreply) as Hrole.
    replace (Nat.even j) with false in Hrole; [exact Hrole|].
    subst j. rewrite Nat.add_1_r, Nat.even_succ, Nat.odd_mul. reflexivity.
  - cbn [length]. rewrite length_drop, length_app. cbn [length]. lia.
Qed.


(** ** Commands, continued *)

Lemma sigil_command_word (raw : string) :
  startswith ":" (strip raw) = true -> exists cmd, command_word raw = Some cmd.
Proof.
  intros Hsig. destruct (sigil_first_token raw Hsig) as [p0 Hp0].
  exists (lower p0). unfold command_word. now rewrite Hsig, Hp0.
Qed.

Lemma command_word_not_chat (raw cmd : string) :
  command_word raw = Some cmd -> ~ is_chat_line raw.
Proof.
  intros Hcmd [_ Hchat]. unfold command_word in Hcmd.
  rewrite Hchat in Hcmd. discriminate.
Qed.

(** An iteration on a command line is the chain of tests on its command
    word and argument. *)
Lemma step_dispatch c h raw w cmd :
  command_word raw = Some cmd ->
  step c h (Line raw) w =
  match dispatch w h cmd (command_arg raw) with
  | Ok o => o
  | Raise e =>
      {| out_history := h;
         out_events := [Print ("Fatal error: " +:+ exn_str e)];
         out_control := Exit1 |}
  end.
Proof.
  intros Hcmd.
  destruct (command_word_parts _ _ Hcmd) as (Hsig & p0 & Hp0 & Hlow).
  rewrite step_command_line by assumption.
  unfold run_command, py_getitem at 1. rewrite Hp0. cbn [bind].
  rewrite command_arg_value. cbn [bind]. rewrite Hlow. reflexivity.
Qed.



(** X11. The transcript of two histories put end to end is the two
    transcripts put end to end. *)
Theorem transcript_text_app (h1 h2 : list message) (t1 t2 : string) :
  transcript_text h1 = Ok t1 ->
  transcript_text h2 = Ok t2 ->
  transcript_text (h1 ++ h2) = Ok (t1 +:+ t2).
Proof.
  revert t1. induction h1 as [|m rest IH]; intros t1 H1 H2.
  - injection H1 as <-. exact H2.
  - cbn [app transcript_text] in *.
    destruct (transcript_entry m) as [e|]; [|discriminate]. cbn [bind] in *.
    destruct (transcript_text rest) as [t|]; [|discriminate]. cbn [bind] in *.
    injection H1 as <-. rewrite (IH t eq_refl H2). cbn [bind].
    now rewrite append_assoc.
Qed.



(** Splits the chain of tests on the command word into its branches. *)
Ltac command_cases h :=
  unfold dispatch;
  repeat case_bool_decide;
  try destruct (py_getitem h 0);
  try destruct (save_transcript _ _ _);
  cbn [bind out_control out_history out_events submitted omap].


Lemma non_chat_submits_nothing c h inp w :
  ~ (exists raw, inp = Line raw /\ is_chat_line raw) ->
  submitted (out_events (step c h inp w)) = [].
Proof.
  intros Hno. destruct inp as [raw|]; [|reflexivity].
  destruct (is_empty (strip raw)) eqn:Hemp.
  { unfold step. now rewrite Hemp. }
  destruct (startswith ":" (strip raw)) eqn:Hsig.
  - destruct (sigil_command_word raw Hsig) as [cmd Hcmd].
    rewrite (step_dispatch c h raw w cmd Hcmd).
    command_cases h; reflexivity.
  - destruct Hno. exists raw. split; [reflexivity | split; assumption].
Qed.




(** ** [call_api], continued *)

(** X12. The reply is found exactly when the body is a dict whose
    "choices" is a list that starts with a dict, whose "message" is a dict
    with a "content"; a string in place of the list or of a dict never
    yields a reply. *)
Theorem extract_reply_shape (data content : json) :
  extract_reply data = Some content <->
  exists d others d1 d2,
    data = JObj d
    /\ assoc_get "choices" d = Some (JArr (JObj d1 :: others))
    /\ assoc_get "message" d1 = Some (JObj d2)
    /\ assoc_get "content" d2 = Some content.
Proof.
  split.
  - unfold extract_reply. destruct data as [| | | | | |d]; try discriminate.
    cbn [subscript_key].
    destruct (assoc_get "choices" d) as [[| | | |s|l|]|] eqn:E1;
      try discriminate.
    + destruct s; discriminate.
    + destruct l as [|[| | | | | |d1] others]; try discriminate.
      cbn. destruct (assoc_get "message" d1) as [[| | | | | |d2]|] eqn:E2;
        try discriminate.
      cbn. intros E3. exists d, others, d1, d2. auto.
  - intros (d & others & d1 & d2 & -> & E1 & E2 & E3).
    unfold extract_reply. cbn. rewrite E1. cbn. rewrite E2. cbn. exact E3.
Qed.

(** X13. A failure of [call_api] is of one of four kinds, tried in this
    order: the exception [session.post] raised, unchanged; for a status
    other than 200, the "HTTP" error, whatever the body; the exception
    [resp.json()] raised, unchanged; for a decoded body without a reply,
    the "Unexpected response format" error. *)
Theorem call_api_failure_kinds
    url mdl ms temp tmo (net : result response) (e : exn) :
  (call_api url mdl ms temp tmo net).2 = Raise e <->
  net = Raise e
  \/ exists resp,
       net = Ok resp
       /\ ((status_code resp <> 200
            /\ e = RuntimeError
                     ("HTTP " +:+ pretty (status_code resp) +:+ ": " +:+ text resp))
           \/ (status_code resp = 200 /\ json_body resp = Raise e)
           \/ (status_code resp = 200
               /\ exists data,
                    json_body resp = Ok data
                    /\ extract_reply data = None
                    /\ e = RuntimeError
                             ("Unexpected response format: " +:+
                              json_dumps_indent2 data))).
Proof using json_dumps_indent2.
  unfold call_api. cbn [snd]. destruct net as [resp|e0]; cbn [bind].
  - case_bool_decide as Hs.
    + split.
      * intros [= <-]. right. exists resp. auto.
      * intros [H|(resp' & [= <-] & [[_ ->]|[[H _]|[H _]]])];
          [discriminate | reflexivity | congruence | congruence].
    + assert (H200 : status_code resp = 200)
        by (destruct (decide (status_code resp = 200)); [assumption | contradiction]).
      destruct (json_body resp) as [data|e1] eqn:Hbody; cbn [bind].
      * destruct (extract_reply data) as [content|] eqn:Hx.
        -- split; [discriminate|].
           intros [H|(resp' & [= <-] & Hk)]; [discriminate|].
           destruct Hk as [[H _]|[[_ H]|(_ & data' & H & Hn & _)]];
             [contradiction | congruence | congruence].
        -- split.
           ++ intros [= <-]. right. exists resp. split; [reflexivity|].
              right. right. split; [assumption|]. exists data. auto.
           ++ intros [H|(resp' & [= <-] & Hk)]; [discriminate|].
              destruct Hk as [[H _]|[[_ H]|(_ & data' & H & _ & ->)]];
                [contradiction | congruence | congruence].
      * split.
        -- intros [= <-]. right. exists resp. auto.
        -- intros [H|(resp' & [= <-] & Hk)]; [discriminate|].
           destruct Hk as [[H _]|[[_ H]|(_ & data' & H & _)]];
             [contradiction | congruence | congruence].
  - split.
    + intros [= <-]. auto.
    + intros [[= <-]|(resp & H & _)]; [reflexivity | discriminate].
Qed.


(** ** Iterations put together *)

(** X22. After ":reset", the next chat turn sends the system message and
    the message just typed, and nothing of the conversation before. *)
Theorem reset_clears_what_is_sent
    (c : config) (h : list message) (raw1 raw2 : string) (w1 w2 : world) :
  reachable c h ->
  command_word raw1 = Some ":reset" ->
  is_chat_line raw2 ->
  0 < max_turns (cfg_args c) ->
  submitted
    (out_events (step c (out_history (step c h (Line raw1) w1)) (Line raw2) w2))
  = [[system_message (cfg_args c); mk_message "user" (JStr (strip raw2))]].
Proof.
  intros Hr Hcmd Hline Hk.
  destruct (reachable_shape c h Hr) as (rest & -> & _).
  rewrite (step_dispatch c _ raw1 w1 _ Hcmd).
  unfold dispatch. cbn [bind py_getitem lookup list_lookup out_history].
  replace (bool_decide (":reset" ∈ ([":quit"; ":q"; ":exit"] : list string)))
    with false by reflexivity.
  replace (bool_decide (":reset" = ":help")) with false by reflexivity.
  replace (bool_decide (":reset" = ":reset")) with true by reflexivity.
  cbn [out_history].
  destruct (chat_turn_submits c [system_message (cfg_args c)] raw2 w2 Hline)
    as (window & Ht & ->).
  cbn [app] in Ht. rewrite truncate_history_positive in Ht by assumption.
  injection Ht as <-. do 2 f_equal.
  apply last_n_all. cbn [length]. lia.
Qed.

(** X23. With a positive pair limit, the chat turn that follows a failed
    one sends the error placeholder of the failed turn, right before the
    message just typed. *)
Theorem error_placeholder_is_sent_again
    (c : config) (h : list message) (raw1 raw2 : string) (w1 w2 : world)
    (e : exn) url mdl ms temp tmo :
  h <> [] ->
  is_chat_line raw1 ->
  (call_api url mdl ms temp tmo (post_outcome w1)).2 = Raise e ->
  is_chat_line raw2 ->
  0 < max_turns (cfg_args c) ->
  exists window earlier,
    submitted
      (out_events (step c (out_history (step c h (Line raw1) w1)) (Line raw2) w2))
    = [window]
    /\ window =
       earlier ++
       [mk_message "assistant" (JStr ("(Error: " +:+ exn_str e +:+ ")"));
        mk_message "user" (JStr (strip raw2))].
Proof.
  intros Hne [Hne1 Hchat1] Hfail Hline2 Hk.
  destruct (step_chat_outcome c h raw1 w1 Hne1 Hchat1) as (t1 & _ & E).
  cbv zeta in E.
  rewrite (call_api_result_indep _ _ _ _ _ url mdl ms temp tmo), Hfail in E.
  rewrite E. cbn [out_history]. clear E.
  destruct h as [|sys rest]; [congruence|].
  set (u1 := mk_message "user" (JStr (strip raw1))).
  set (err := mk_message "assistant" _).
  destruct (chat_turn_submits c ((sys :: rest) ++ [u1; err]) raw2 w2 Hline2)
    as (window & Ht & ->).
  set (u2 := mk_message "user" (JStr (strip raw2))) in *.
  exists window. cbn [app] in Ht.
  rewrite truncate_history_positive in Ht by assumption.
  injection Ht as <-. rewrite last_n_drop.
  replace ((rest ++ [u1; err]) ++ [u2]) with ((rest ++ [u1]) ++ [err; u2])
    by (now rewrite <- !app_assoc).
  rewrite !length_app. cbn [length].
  set (j := (_ - _)%nat).
  assert (Hj : (j <= length rest + 1)%nat) by (subst j; lia).
  exists (sys :: drop j (rest ++ [u1])). split; [reflexivity|].
  cbn [app]. f_equal. apply drop_app_le. rewrite length_app. cbn [length]. lia.
Qed.

(** X20. The loop on two scripts put end to end: when the first does not
    end the loop, the second runs from the history the first leaves and
    the events add up; when the first ends it, nothing of the second is
    read. *)
Theorem run_app
    (c : config) (h : list message) (s1 s2 : list (input_event * world)) :
  run c h (s1 ++ s2) =
  (let '(h1, e1, ctl1) := run c h s1 in
   match ctl1 with
   | Continue => let '(h2, e2, ctl2) := run c h1 s2 in (h2, e1 ++ e2, ctl2)
   | _ => (h1, e1, ctl1)
   end).
Proof.
  revert h. induction s1 as [|[inp w] s1 IH]; intros h.
  - cbn [app run]. destruct (run c h s2) as [[h2 e2] ctl2]. reflexivity.
  - cbn [app run]. destruct (out_control (step c h inp w)); try reflexivity.
    rewrite IH. destruct (run c (out_history (step c h inp w)) s1)
      as [[h1 e1] ctl1].
    destruct ctl1; try reflexivity.
    destruct (run c h1 s2) as [[h2 e2] ctl2]. now rewrite app_assoc.
Qed.

Lemma classic_chat (inp : input_event) :
  (exists raw, inp = Line raw /\ is_chat_line raw)
  \/ ~ (exists raw, inp = Line raw /\ is_chat_line raw).
Proof.
  destruct inp as [raw|]; [|right; intros (raw & [=] & _)].
  unfold is_chat_line.
  destruct (is_empty (strip raw)) eqn:E1;
    [right; intros (raw' & [= <-] & H1 & _); congruence|].
  destruct (startswith ":" (strip raw)) eqn:E2;
    [right; intros (raw' & [= <-] & _ & H2); congruence|].
  left. eauto.
Qed.

Lemma submitted_app (e1 e2 : list event) :
  submitted (e1 ++ e2) = submitted e1 ++ submitted e2.
Proof. unfold submitted. apply omap_app. Qed.

(** X21. Over a whole run the loop sends at most one request per input
    read: no request is ever repeated. *)
Theorem run_sends_at_most_one_request_per_input
    (c : config) (h : list message) (script : list (input_event * world)) :
  (length (submitted (run c h script).1.2) <= length script)%nat.
Proof.
  revert h. induction script as [|[inp w] script IH]; intros h; [cbn; lia|].
  cbn [run].
  assert (Hone : (length (submitted (out_events (step c h inp w))) <= 1)%nat).
  { destruct (classic_chat inp) as [(raw & -> & Hline)|Hc].
    - destruct (chat_turn_submits c h raw w Hline) as (window & _ & ->).
      cbn. lia.
    - rewrite (non_chat_submits_nothing c h inp w Hc). cbn. lia. }
  destruct (out_control (step c h inp w)); cbn [fst snd length]; try lia.
  specialize (IH (out_history (step c h inp w))).
  destruct (run c (out_history (step c h inp w)) script) as [[h1 e1] ctl1].
  cbn [fst snd] in *. rewrite submitted_app, length_app. lia.
Qed.


(** ** Start-up *)

Lemma rstrip_chars_no_trailing (chars s p : string) (x : ascii) :
  has_char x chars = true -> rstrip_chars chars s <> p +:+ String x "".
Proof.
  intros Hx. revert p. induction s as [|c r IH]; intros p; cbn [rstrip_chars].
  - destruct p; discriminate.
  - destruct (has_char c chars && is_empty (rstrip_chars chars r)) eqn:E.
    + destruct p; discriminate.
    + destruct p as [|y p].
      * rewrite append_nil. intros [= -> Hr]. rewrite Hr, Hx in E. discriminate.
      * rewrite append_cons. intros [= _ Hr]. exact (IH p Hr).
Qed.

Lemma rstrip_chars_idem (chars s : string) :
  rstrip_chars chars (rstrip_chars chars s) = rstrip_chars chars s.
Proof.
  induction s as [|c r IH]; [reflexivity|]. cbn [rstrip_chars].
  destruct (has_char c chars && is_empty (rstrip_chars chars r)) eqn:E;
    [reflexivity|].
  cbn [rstrip_chars]. now rewrite IH, E.
Qed.

Lemma rstrip_chars_app_char (chars s : string) (x : ascii) :
  has_char x chars = true ->
  rstrip_chars chars (s +:+ String x "") = rstrip_chars chars s.
Proof.
  intros Hx. induction s as [|c r IH].
  - rewrite append_nil. cbn. now rewrite Hx.
  - rewrite append_cons. cbn [rstrip_chars]. now rewrite IH.
Qed.

(** The base URL [main] settles on, before the trailing slashes go. *)
Lemma main_setup_base (a : args) (env : environ) :
  rstrip_chars "/" (py_or (base_url a) (load_env env).1.2) =
  rstrip_chars "/"
    (py_or (base_url a)
           (default "https://ai.sooners.us" (env !! "SOONERAI_BASE_URL"))).
Proof.
  unfold load_env. cbn [fst snd].
  set (x := default _ _).
  assert (Hx : py_or (Some x) "" = x) by (destruct x; reflexivity).
  rewrite Hx. destruct (base_url a) as [b|]; cbn [py_or].
  - destruct (is_empty b); [apply rstrip_chars_idem | reflexivity].
  - apply rstrip_chars_idem.
Qed.

(** X17. When start-up succeeds, the endpoint is the chosen base URL, which
    is the command-line one when given and not empty and else the one of
    the environment or the built-in one, with its trailing slashes removed
    and "/api/chat/completions" added: no slash is doubled.  The model is
    chosen the same way, and the arguments are kept. *)
Theorem main_setup_endpoint
    (a : args) (env : environ)
    (cfg : config) (session : gmap string string) (banner : list event) :
  main_setup a env = Ok (cfg, session, banner) ->
  let base :=
    rstrip_chars "/"
      (py_or (base_url a)
             (default "https://ai.sooners.us" (env !! "SOONERAI_BASE_URL"))) in
  cfg_url cfg = base +:+ "/api/chat/completions"
  /\ base <> ""
  /\ (forall p, base <> p +:+ "/")
  /\ cfg_model cfg =
     py_or (model a) (default "gemma3:4b" (env !! "SOONERAI_MODEL"))
  /\ cfg_args cfg = a.
Proof.
  intros H base. unfold main_setup in H.
  pose proof (main_setup_base a env) as Hb. fold base in Hb.
  destruct (load_env env) as [[api_key env_base] env_model] eqn:El.
  cbn [fst snd] in Hb. rewrite Hb in H.
  assert (Hm : env_model = default "gemma3:4b" (env !! "SOONERAI_MODEL"))
    by (unfold load_env in El; now injection El as _ _ <-).
  unfold make_client in H.
  destruct (is_empty (py_or api_key "")); [discriminate|].
  destruct (is_empty base) eqn:Hbase; [discriminate|].
  cbn [bind fst snd] in H. injection H as <- _ _.
  cbn [cfg_url cfg_model cfg_args]. rewrite Hm.
  split; [reflexivity|]. split; [now destruct base|].
  split; [|split; reflexivity].
  intros p. apply rstrip_chars_no_trailing. reflexivity.
Qed.

(** X18. Start-up fails, before anything is printed and outside the
    handlers of [main], with "Missing SOONERAI_API_KEY" when the key is
    unset or empty (whatever the base URL), and else with "Missing
    SOONERAI_BASE_URL" when the chosen base URL is empty or made of
    slashes only; in every other case it succeeds. *)
Theorem main_setup_fails_on_missing_settings
    (a : args) (env : environ) :
  let key := py_or (env !! "SOONERAI_API_KEY") "" in
  let base :=
    rstrip_chars "/"
      (py_or (base_url a)
             (default "https://ai.sooners.us" (env !! "SOONERAI_BASE_URL"))) in
  (key = "" ->
   main_setup a env =
   Raise (RuntimeError "Missing SOONERAI_API_KEY in ~/.soonerai.env"))
  /\ (key <> "" -> base = "" ->
      main_setup a env =
      Raise (RuntimeError
               "Missing SOONERAI_BASE_URL (expected 'https://ai.sooners.us')"))
  /\ (key <> "" -> base <> "" -> returns (main_setup a env)).
Proof.
  intros key base. unfold main_setup.
  pose proof (main_setup_base a env) as Hb. fold base in Hb.
  destruct (load_env env) as [[api_key env_base] env_model] eqn:El.
  cbn [fst snd] in Hb. rewrite Hb.
  assert (Hk : api_key = env !! "SOONERAI_API_KEY")
    by (unfold load_env in El; now injection El as <- _ _).
  rewrite Hk. fold key. unfold make_client. fold key.
  split; [|split].
  - intros ->. reflexivity.
  - intros Hkey ->. destruct key; [contradiction | reflexivity].
  - intros Hkey Hbase. destruct key; [contradiction|].
    destruct base; [contradiction|]. eexists. reflexivity.
Qed.

(** X19. When start-up succeeds, the banner names the model and the
    endpoint that the requests of the session use, and the headers set on
    the session are the key as a bearer token and the JSON content type,
    and no other. *)
Theorem main_setup_banner_and_headers
    (a : args) (env : environ)
    (cfg : config) (session : gmap string string) (banner : list event) :
  main_setup a env = Ok (cfg, session, banner) ->
  banner !! 2%nat =
    Some (Print ("  Model: " +:+ cfg_model cfg +:+ " | Endpoint: " +:+ cfg_url cfg))
  /\ length banner = 5%nat
  /\ (exists key,
         env !! "SOONERAI_API_KEY" = Some key
         /\ session !! "Authorization" = Some ("Bearer " +:+ key))
  /\ session !! "Content-Type" = Some "application/json"
  /\ (forall name,
         name <> "Authorization" -> name <> "Content-Type" ->
         session !! name = None).
Proof.
  intros H. unfold main_setup in H.
  destruct (load_env env) as [[api_key env_base] env_model] eqn:El.
  assert (Hk : api_key = env !! "SOONERAI_API_KEY")
    by (unfold load_env in El; now injection El as <- _ _).
  unfold make_client in H.
  destruct (is_empty (py_or api_key "")) eqn:Hkey; [discriminate|].
  destruct (is_empty (rstrip_chars "/" (py_or (base_url a) env_base)));
    [discriminate|].
  cbn [bind fst snd] in H. injection H as <- <- <-.
  cbn [cfg_url cfg_model].
  split; [reflexivity|]. split; [reflexivity|]. split; [|split].
  - rewrite <- Hk. destruct api_key as [key|]; [|discriminate].
    exists key. split; [reflexivity|].
    rewrite lookup_insert_ne by discriminate. rewrite lookup_insert_eq.
    destruct key; [discriminate Hkey | reflexivity].
  - apply lookup_insert_eq.
  - intros name H1 H2. rewrite !lookup_insert_ne by congruence.
    apply lookup_empty.
Qed.

(** ** Output that fails *)

Lemma print_lines_all t lines :
  prints_all t -> print_lines t lines = (map Print lines, Ok tt).
Proof.
  intros Hq. induction lines as [|l ls IH]; [reflexivity|].
  cbn [print_lines map]. now rewrite Hq, IH.
Qed.

Lemma finish_all t before after evs lines how :
  prints_all t ->
  finish t before after evs lines how =
  {| end_history := after; end_events := evs ++ map Print lines;
     end_how := how |}.
Proof. intros Hq. unfold finish. now rewrite print_lines_all. Qed.

Lemma fatal_all t h evs e :
  prints_all t ->
  fatal t h evs e =
  {| end_history := h;
     end_events := evs ++ [Print ("Fatal error: " +:+ exn_str e)];
     end_how := Exits1 |}.
Proof. intros Hq. unfold fatal. now rewrite Hq. Qed.



Lemma write_entries_writable h :
  Forall writable h ->
  exists t, transcript_text h = Ok t /\ write_entries h = (t, Ok tt).
Proof.
  induction 1 as [|m rest (entry & He & Hs) _ (t & Ht & Hw)].
  - exists "". split; reflexivity.
  - exists (entry +:+ t). cbn [transcript_text write_entries].
    rewrite He, Ht, Hs, Hw. split; reflexivity.
Qed.

Lemma write_entries_returns h t u :
  write_entries h = (t, Ok u) -> Forall writable h.
Proof.
  revert t. induction h as [|m rest IH]; intros t; [constructor|].
  cbn [write_entries].
  destruct (transcript_entry m) as [entry|e] eqn:He; [|discriminate].
  destruct (has_surrogate entry) eqn:Hs; [discriminate|].
  destruct (write_entries rest) as [t' r'] eqn:Hw.
  intros [= <- ->]. constructor; [exists entry; auto | eapply IH; reflexivity].
Qed.

Lemma write_entries_stops before m after tb :
  Forall writable before ->
  transcript_text before = Ok tb ->
  (forall e, transcript_entry m = Raise e ->
     write_entries (before ++ m :: after) = (tb, Raise e))
  /\ (forall entry, transcript_entry m = Ok entry ->
        has_surrogate entry = true ->
        write_entries (before ++ m :: after) =
        (tb, Raise (LibraryError (encode_error entry)))).
Proof.
  intros Hall. revert tb.
  induction Hall as [|m0 rest (entry0 & He0 & Hs0) _ IH]; intros tb.
  - intros [= <-]. split.
    + intros e He. cbn. now rewrite He.
    + intros entry He Hs. cbn. now rewrite He, Hs.
  - cbn [transcript_text]. rewrite He0. cbn [bind].
    destruct (transcript_text rest) as [t|] eqn:Ht; [|discriminate].
    cbn [bind]. intros [= <-].
    destruct (IH t eq_refl) as [IH1 IH2].
    split.
    + intros e He. cbn [app write_entries].
      rewrite He0, Hs0, (IH1 e He). reflexivity.
    + intros entry He Hs. cbn [app write_entries].
      rewrite He0, Hs0, (IH2 entry He Hs). reflexivity.
Qed.

Lemma step_io_dispatch t c h raw w cmd :
  command_word raw = Some cmd ->
  step_io t c h (Line raw) w = dispatch_io t w h cmd (command_arg raw).
Proof.
  intros Hcmd.
  destruct (command_word_parts _ _ Hcmd) as (Hsig & p0 & Hp0 & Hlow).
  rewrite step_io_command_line by assumption.
  unfold run_command_io, py_getitem at 1. rewrite Hp0.
  rewrite command_arg_value, Hlow. reflexivity.
Qed.

Lemma step_io_chat t c h raw w :
  is_chat_line raw ->
  step_io t c h (Line raw) w = chat_turn_io t c w h (strip raw).
Proof. intros [Hne Hsig]. unfold step_io. now rewrite Hne, Hsig. Qed.


Lemma truncate_after_append (h : list message) (m : message) (k : Z) :
  exists trimmed, truncate_history (h ++ [m]) k = Ok trimmed.
Proof.
  destruct h as [|x l]; cbn [app]; apply truncate_history_cons_returns.
Qed.

Lemma io_help_lines : map Print help_lines = help_text.
Proof. reflexivity. Qed.

(** X24. On a terminal where every [print] succeeds and with a history
    whose every message can be written, the iteration whose output can
    fail does what [step] does: same history, same events, same way to
    end. *)
Theorem step_io_agrees_with_step
    (t : terminal) (c : config) (h : list message) (inp : input_event)
    (w : world) :
  prints_all t ->
  Forall writable h ->
  step_io t c h inp w = as_outcome_io (step c h inp w).
Proof.
  intros Hq Hw. destruct inp as [raw|].
  2:{ unfold step_io. rewrite finish_all by assumption. reflexivity. }
  unfold step_io, step.
  destruct (is_empty (strip raw)); [reflexivity|].
  destruct (startswith ":" (strip raw)).
  - unfold run_command_io, run_command.
    destruct (py_getitem (split_maxsplit1 (strip raw)) 0) as [p0|e];
      [|rewrite fatal_all by assumption; reflexivity].
    cbn [bind]. rewrite command_arg_value. cbn [bind].
    unfold dispatch_io.
    repeat case_bool_decide.
    + rewrite finish_all by assumption. reflexivity.
    + rewrite finish_all by assumption. reflexivity.
    + destruct (py_getitem h 0) as [h0|e];
        [rewrite finish_all | rewrite fatal_all]; (assumption || reflexivity).
    + unfold save_transcript_utf8, save_transcript.
      destruct (fs_error w) as [msg|].
      * rewrite fatal_all by assumption. reflexivity.
      * destruct (write_entries_writable h Hw) as (tx & -> & ->).
        cbn [bind]. rewrite finish_all by assumption. reflexivity.
    + rewrite finish_all by assumption. reflexivity.
  - unfold chat_turn_io, chat_turn.
    destruct (truncate_after_append h (mk_message "user" (JStr (strip raw)))
                (max_turns (cfg_args c))) as [trimmed ->].
    cbn [bind].
    destruct (call_api _ _ _ _ _ _) as [req [reply|e]];
      rewrite finish_all by assumption; reflexivity.
Qed.






(** X10. [save_transcript] raises the file-system error, with no file
    written, when the file cannot be created.  Otherwise it returns exactly
    when every message can be written: its role is a string or is missing
    and its entry holds no lone surrogate; the file then holds every
    entry.  At the first message that cannot be written it raises
    [AttributeError] for a role that is not a string, [UnicodeEncodeError]
    for an entry with a lone surrogate, and the file is left with the
    entries of the messages before that one. *)
Theorem save_transcript_returns_iff
    (w : world) (history : list message) (path : string) :
  (forall m,
     writable m <->
     exists r, dict_get m "role" (JStr "?") = JStr r
               /\ has_surrogate (capitalize r +:+ ": " +:+ content_text m
                                 +:+ newline +:+ newline) = false)
  /\ (forall msg, fs_error w = Some msg ->
        save_transcript_utf8 w history path = (None, Raise (LibraryError msg)))
  /\ (fs_error w = None ->
      (returns (save_transcript_utf8 w history path).2 <->
       Forall writable history)
      /\ (Forall writable history ->
          exists t,
            transcript_text history = Ok t
            /\ save_transcript_utf8 w history path =
               (Some t, Ok (resolve w path)))
      /\ (forall before m after,
            history = before ++ m :: after ->
            Forall writable before ->
            exists tb,
              transcript_text before = Ok tb
              /\ (forall v,
                    dict_get m "role" (JStr "?") = v ->
                    (forall r, v <> JStr r) ->
                    save_transcript_utf8 w history path =
                    (Some tb,
                     Raise (AttributeError
                              ("'" +:+ py_type_name v +:+
                               "' object has no attribute 'capitalize'"))))
              /\ (forall entry,
                    transcript_entry m = Ok entry ->
                    has_surrogate entry = true ->
                    save_transcript_utf8 w history path =
                    (Some tb, Raise (LibraryError (encode_error entry)))))).
Proof.
  split; [|split].
  - intros m. unfold writable, transcript_entry, role_label, content_text.
    split.
    + intros (entry & He & Hs).
      destruct (dict_get m "role" (JStr "?")) as [| | | |r| |];
        try discriminate He.
      cbn [bind] in He. injection He as <-. eauto.
    + intros (r & -> & Hs). cbn [bind]. eauto.
  - unfold save_transcript_utf8. now intros msg ->.
  - unfold save_transcript_utf8. intros ->. split; [|split].
    + unfold returns. split.
      * destruct (write_entries history) as [t [u|e]] eqn:Hw.
        -- intros _. eapply write_entries_returns. exact Hw.
        -- cbn. intros [a Ha]. discriminate Ha.
      * intros Hall.
        destruct (write_entries_writable history Hall) as (t & _ & ->).
        cbn. eauto.
    + intros Hall.
      destruct (write_entries_writable history Hall) as (t & Ht & ->).
      exists t. split; [exact Ht | reflexivity].
    + intros before m after -> Hall.
      destruct (write_entries_writable before Hall) as (tb & Htb & _).
      exists tb. split; [exact Htb|].
      destruct (write_entries_stops before m after tb Hall Htb) as [H1 H2].
      split.
      * intros v Hv Hnot.
        rewrite (H1 (AttributeError
                       ("'" +:+ py_type_name v +:+
                        "' object has no attribute 'capitalize'")));
          [reflexivity|].
        unfold transcript_entry, role_label. rewrite Hv.
        destruct v; try reflexivity. now destruct (Hnot s).
      * intros entry He Hs. now rewrite (H2 entry He Hs).
Qed.

(** X14. When the remote call of a chat turn returns a reply, the reply is
    printed before it is recorded.  If the print succeeds, the history grows
    by the user message and an assistant message holding the reply as it
    came, string or not, and the loop goes on.  If the print raises, the
    history holds the user message only, the request has been sent all the
    same, and the handler at the end of [main] takes over: it exits with
    status 1 after printing the error, or lets the exception out when that
    print raises too. *)
Theorem successful_turn_is_recorded
    (t : terminal) (c : config) (h : list message) (raw : string) (w : world)
    (reply : json) url mdl ms temp tmo :
  is_chat_line raw ->
  (call_api url mdl ms temp tmo (post_outcome w)).2 = Ok reply ->
  let o := step_io t c h (Line raw) w in
  let said := "SpongeBob: " +:+ py_str reply in
  let user := mk_message "user" (JStr (strip raw)) in
  exists req,
    (req_url req = cfg_url c /\ req_model req = cfg_model c
     /\ req_temperature req = temperature (cfg_args c)
     /\ req_timeout req = timeout (cfg_args c))
    /\ (print_error t said = None ->
        end_how o = Continues
        /\ end_history o = h ++ [user; mk_message "assistant" reply]
        /\ end_events o = [HttpPost req; Print said])
    /\ (forall msg,
          print_error t said = Some msg ->
          end_history o = h ++ [user]
          /\ (print_error t ("Fatal error: " +:+ msg) = None ->
              end_how o = Exits1
              /\ end_events o = [HttpPost req; Print ("Fatal error: " +:+ msg)])
          /\ (forall msg',
                print_error t ("Fatal error: " +:+ msg) = Some msg' ->
                end_how o = Uncaught (LibraryError msg')
                /\ end_events o = [HttpPost req])).
Proof.
  intros Hchat Hok o said user.
  subst o. rewrite (step_io_chat t c h raw w Hchat). unfold chat_turn_io.
  destruct (truncate_after_append h user (max_turns (cfg_args c)))
    as [trimmed Ht].
  fold user. rewrite Ht.
  rewrite (surjective_pairing (call_api _ _ _ _ _ _)).
  rewrite (call_api_result_indep _ _ _ _ _ url mdl ms temp tmo), Hok.
  rewrite call_api_request. fold said.
  exists {| req_url := cfg_url c; req_model := cfg_model c;
            req_messages := trimmed;
            req_temperature := temperature (cfg_args c);
            req_timeout := timeout (cfg_args c) |}.
  split; [cbn; auto|].
  unfold finish, print_lines, fatal. split.
  - intros ->. cbn. split; [reflexivity|]. split; [|reflexivity].
    now rewrite <- app_assoc.
  - intros msg ->. cbn [end_history exn_str]. split.
    + destruct (print_error t ("Fatal error: " +:+ msg)); reflexivity.
    + split.
      * intros ->. split; reflexivity.
      * intros msg' ->. split; reflexivity.
Qed.
Lemma command_word_chat_none (raw : string) :
  startswith ":" (strip raw) = false -> command_word raw = None.
Proof. intros H. unfold command_word. now rewrite H. Qed.

Lemma command_word_blank_none (raw : string) :
  is_empty (strip raw) = true -> command_word raw = None.
Proof.
  intros H. unfold command_word.
  destruct (strip raw); [reflexivity | discriminate].
Qed.


Lemma fatal_dies t h evs e : ~ survives (fatal t h evs e).
Proof.
  unfold survives, fatal.
  destruct (print_error _ _); intros [H|H]; discriminate H.
Qed.

Lemma print_lines_ok t lines evs u :
  print_lines t lines = (evs, Ok u) -> evs = map Print lines.
Proof.
  revert evs. induction lines as [|l ls IH]; intros evs.
  - now intros [= <-].
  - cbn [print_lines map]. destruct (print_error t l); [discriminate|].
    destruct (print_lines t ls) as [evs' r] eqn:Hls.
    intros [= <- ->]. f_equal. now apply IH.
Qed.

Lemma finish_survives t before after evs lines how :
  survives (finish t before after evs lines how) ->
  finish t before after evs lines how =
  {| end_history := after; end_events := evs ++ map Print lines;
     end_how := how |}.
Proof.
  unfold finish. destruct (print_lines t lines) as [evs' [u|e]] eqn:Hp.
  - intros _. now rewrite (print_lines_ok _ _ _ _ Hp).
  - intros H. now apply fatal_dies in H.
Qed.

Ltac io_survives :=
  let H := fresh "H" in
  intros H;
  first [ now apply fatal_dies in H
        | rewrite (finish_survives _ _ _ _ _ _ H); reflexivity ].

(** X25. An iteration that does not reach the handler at the end of
    [main], on any terminal, is the iteration of [step]: every [print] it
    made succeeded, the transcript it saved was written whole, and its
    history, events and way to end are those of [step]. *)
Theorem surviving_iteration_is_step
    (t : terminal) (c : config) (h : list message) (inp : input_event)
    (w : world) :
  survives (step_io t c h inp w) ->
  step_io t c h inp w = as_outcome_io (step c h inp w).
Proof.
  destruct inp as [raw|].
  2:{ unfold step_io. io_survives. }
  unfold step_io, step.
  destruct (is_empty (strip raw)); [reflexivity|].
  destruct (startswith ":" (strip raw)).
  - unfold run_command_io, run_command.
    destruct (py_getitem (split_maxsplit1 (strip raw)) 0) as [p0|e];
      [|io_survives].
    cbn [bind]. rewrite command_arg_value. cbn [bind].
    unfold dispatch_io.
    repeat case_bool_decide; try io_survives.
    + destruct (py_getitem h 0) as [h0|e]; io_survives.
    + unfold save_transcript_utf8, save_transcript.
      destruct (fs_error w) as [msg|]; [io_survives|].
      destruct (write_entries h) as [tx [[]|e]] eqn:Hw; cbn [bind];
        [|io_survives].
      pose proof (write_entries_returns _ _ _ Hw) as Hall.
      destruct (write_entries_writable h Hall) as (tx' & -> & Hw').
      rewrite Hw in Hw'. injection Hw' as <-.
      io_survives.
  - unfold chat_turn_io, chat_turn.
    destruct (truncate_after_append h (mk_message "user" (JStr (strip raw)))
                (max_turns (cfg_args c))) as [trimmed ->].
    cbn [bind].
    destruct (call_api _ _ _ _ _ _) as [req [reply|e]]; io_survives.
Qed.

Lemma finish_how t before after evs lines how :
  end_how (finish t before after evs lines how) = how
  \/ ~ survives (finish t before after evs lines how).
Proof.
  unfold finish. destruct (print_lines t lines) as [evs' [u|e]].
  - left. reflexivity.
  - right. apply fatal_dies.
Qed.

Lemma finish_history t before after evs lines how :
  end_history (finish t before after evs lines how) = after
  \/ end_history (finish t before after evs lines how) = before.
Proof.
  unfold finish, fatal. destruct (print_lines t lines) as [evs' [u|e]].
  - left. reflexivity.
  - right. destruct (print_error _ _); reflexivity.
Qed.

Lemma fatal_history t h evs e : end_history (fatal t h evs e) = h.
Proof. unfold fatal. destruct (print_error _ _); reflexivity. Qed.

Lemma print_lines_submitted t lines : submitted (print_lines t lines).1 = [].
Proof.
  induction lines as [|l ls IH]; [reflexivity|].
  cbn [print_lines]. destruct (print_error t l); [reflexivity|].
  destruct (print_lines t ls) as [evs r]. exact IH.
Qed.

Lemma fatal_submitted t h evs e :
  submitted (end_events (fatal t h evs e)) = submitted evs.
Proof.
  unfold fatal. destruct (print_error _ _); cbn [end_events]; [reflexivity|].
  rewrite submitted_app. cbn. apply app_nil_r.
Qed.

Lemma finish_submitted t before after evs lines how :
  submitted (end_events (finish t before after evs lines how)) = submitted evs.
Proof.
  unfold finish. pose proof (print_lines_submitted t lines) as Hp.
  destruct (print_lines t lines) as [evs' [u|e]]; cbn [fst] in Hp.
  - cbn [end_events]. rewrite submitted_app, Hp. apply app_nil_r.
  - rewrite fatal_submitted, submitted_app, Hp. apply app_nil_r.
Qed.

(** One [print] and then [break] or [continue]. *)
Lemma finish_one_line t before after evs line how :
  (print_error t line = None ->
   finish t before after evs [line] how =
   {| end_history := after; end_events := evs ++ [Print line];
      end_how := how |})
  /\ (forall msg, print_error t line = Some msg ->
        finish t before after evs [line] how =
        fatal t before evs (LibraryError msg)).
Proof.
  unfold finish, print_lines. split.
  - intros ->. reflexivity.
  - intros msg ->. now rewrite app_nil_r.
Qed.

(** The iteration on a line that is not a command. *)
Lemma step_io_not_command t c h raw w :
  command_word raw = None ->
  step_io t c h (Line raw) w =
  {| end_history := h; end_events := []; end_how := Continues |}
  \/ is_chat_line raw.
Proof.
  intros Hcmd. unfold step_io.
  destruct (is_empty (strip raw)) eqn:Hemp; [now left|].
  destruct (startswith ":" (strip raw)) eqn:Hsig.
  - destruct (sigil_command_word raw Hsig) as [cmd Hc]. congruence.
  - right. split; assumption.
Qed.

(** The iteration on a chat line: one request, one [print]. *)
Lemma step_io_chat_outcome t c h raw w :
  is_chat_line raw ->
  exists req line after,
    step_io t c h (Line raw) w =
    finish t (h ++ [mk_message "user" (JStr (strip raw))]) after
           [HttpPost req] [line] Continues
    /\ (h ++ [mk_message "user" (JStr (strip raw))]) `prefix_of` after.
Proof.
  intros Hline. rewrite (step_io_chat t c h raw w Hline). unfold chat_turn_io.
  destruct (truncate_after_append h (mk_message "user" (JStr (strip raw)))
              (max_turns (cfg_args c))) as [trimmed ->].
  destruct (call_api _ _ _ _ _ _) as [req [reply|e]];
    eexists _, _, _; (split; [reflexivity | now apply prefix_app_r]).
Qed.

Ltac io_command_cases h :=
  unfold dispatch_io;
  repeat case_bool_decide;
  try destruct (py_getitem h 0);
  try destruct (save_transcript_utf8 _ _ _) as [[?|] [?|?]].

Lemma fatal_no_break t h evs e : end_how (fatal t h evs e) <> Breaks.
Proof. unfold fatal. destruct (print_error _ _); discriminate. Qed.

Lemma finish_no_break t before after evs lines how :
  how <> Breaks -> end_how (finish t before after evs lines how) <> Breaks.
Proof.
  intros Hhow. unfold finish.
  destruct (print_lines t lines) as [evs' [u|e]];
    [exact Hhow | apply fatal_no_break].
Qed.

Lemma dispatch_io_no_break t w h cmd arg :
  cmd ∉ ([":quit"; ":q"; ":exit"] : list string) ->
  end_how (dispatch_io t w h cmd arg) <> Breaks.
Proof.
  intros Hnot. unfold dispatch_io. rewrite bool_decide_eq_false_2 by assumption.
  repeat case_bool_decide;
    try destruct (py_getitem h 0);
    try destruct (save_transcript_utf8 _ _ _) as [[?|] [?|?]];
    first [apply fatal_no_break | apply finish_no_break; discriminate].
Qed.

(** [print] of a farewell and then [break]. *)
Lemma farewell_breaks t h line :
  (end_how (finish t h h [] [line] Breaks) = Breaks <->
   print_error t line = None)
  /\ end_history (finish t h h [] [line] Breaks) = h.
Proof.
  destruct (finish_one_line t h h [] line Breaks) as [Hok Hfail].
  destruct (print_error t line) as [msg|] eqn:Hp.
  - rewrite (Hfail msg eq_refl). split; [|apply fatal_history].
    split; [|discriminate]. intros H. now apply fatal_no_break in H.
  - rewrite (Hok eq_refl). cbn. split; [split|]; reflexivity.
Qed.

(** X7. The loop ends normally in two cases only: [input] is interrupted
    or at end of file, or the command word of the line is ":quit", ":q"
    or ":exit".  The history is then left as it was.  On a terminal where
    [print] can raise, the loop ends normally in these two cases when the
    farewell is printed, and in no other case. *)
Theorem loop_breaks_only_on_quit
    (c : config) (h : list message) (inp : input_event) (w : world) :
  (out_control (step c h inp w) = Break <->
   inp = Interrupted
   \/ exists raw cmd,
        inp = Line raw /\ command_word raw = Some cmd
        /\ cmd ∈ ([":quit"; ":q"; ":exit"] : list string))
  /\ (out_control (step c h inp w) = Break -> out_history (step c h inp w) = h)
  /\ forall t,
       (end_how (step_io t c h inp w) = Breaks <->
        (inp = Interrupted /\ print_error t (newline +:+ bye) = None)
        \/ exists raw cmd,
             inp = Line raw /\ command_word raw = Some cmd
             /\ cmd ∈ ([":quit"; ":q"; ":exit"] : list string)
             /\ print_error t bye = None)
       /\ (end_how (step_io t c h inp w) = Breaks ->
           end_history (step_io t c h inp w) = h).
Proof.
  assert (Hstep :
    (out_control (step c h inp w) = Break <->
     inp = Interrupted
     \/ exists raw cmd,
          inp = Line raw /\ command_word raw = Some cmd
          /\ cmd ∈ ([":quit"; ":q"; ":exit"] : list string))
    /\ (out_control (step c h inp w) = Break ->
        out_history (step c h inp w) = h)).
  { destruct inp as [raw|]; [|split; [split; auto | reflexivity]].
    destruct (is_empty (strip raw)) eqn:Hemp.
    { unfold step. rewrite Hemp. cbn. split; [|discriminate].
      split; [discriminate|]. intros [H|(raw' & cmd & [= <-] & Hcmd & _)];
        [discriminate|].
      unfold command_word in Hcmd. destruct (strip raw); discriminate. }
    destruct (startswith ":" (strip raw)) eqn:Hsig.
    - destruct (sigil_command_word raw Hsig) as [cmd Hcmd].
      rewrite (step_dispatch c h raw w cmd Hcmd). split.
      + split.
        * intros H. right. exists raw, cmd. split; [reflexivity|].
          split; [exact Hcmd|]. revert H.
          command_cases h; try discriminate; intros _; assumption.
        * intros [H|(raw' & cmd' & [= <-] & Hcmd' & Hin)]; [discriminate|].
          rewrite Hcmd in Hcmd'. injection Hcmd' as <-.
          unfold dispatch. now rewrite bool_decide_eq_true_2.
      + command_cases h; try discriminate; reflexivity.
    - destruct (step_chat_outcome c h raw w Hemp Hsig) as (trimmed & _ & E).
      cbv zeta in E. rewrite E. cbn. split; [|discriminate].
      split; [discriminate|].
      intros [H|(raw' & cmd & [= <-] & Hcmd & _)]; [discriminate|].
      unfold command_word in Hcmd. rewrite Hsig in Hcmd. discriminate. }
  destruct Hstep as [Hiff Hsame].
  split; [exact Hiff|]. split; [exact Hsame|]. intros t.
  assert (Hnever : forall raw,
             inp = Line raw ->
             end_how (step_io t c h inp w) <> Breaks ->
             (forall cmd, command_word raw = Some cmd ->
                cmd ∉ ([":quit"; ":q"; ":exit"] : list string)) ->
             (end_how (step_io t c h inp w) = Breaks <->
              (inp = Interrupted /\ print_error t (newline +:+ bye) = None)
              \/ exists raw cmd,
                   inp = Line raw /\ command_word raw = Some cmd
                   /\ cmd ∈ ([":quit"; ":q"; ":exit"] : list string)
                   /\ print_error t bye = None)
             /\ (end_how (step_io t c h inp w) = Breaks ->
                 end_history (step_io t c h inp w) = h)).
  { intros raw -> Hno Hcmds. split; [split|]; try (intros H; now destruct Hno).
    intros [[H _]|(raw' & cmd' & [= <-] & Hc & Hin & _)]; [discriminate|].
    now destruct (Hcmds cmd' Hc). }
  destruct inp as [raw|].
  - destruct (command_word raw) as [cmd|] eqn:Hcmd.
    + destruct (decide (cmd ∈ ([":quit"; ":q"; ":exit"] : list string)))
        as [Hin|Hnot].
      * rewrite (step_io_dispatch t c h raw w cmd Hcmd). unfold dispatch_io.
        rewrite bool_decide_eq_true_2 by assumption.
        destruct (farewell_breaks t h bye) as [Hbreak Hh].
        split; [|intros _; exact Hh]. rewrite Hbreak. split.
        -- intros Hp. right. exists raw, cmd. auto.
        -- intros [[H _]|(raw' & cmd' & _ & _ & _ & Hp)];
             [discriminate | exact Hp].
      * apply (Hnever raw eq_refl).
        -- rewrite (step_io_dispatch t c h raw w cmd Hcmd).
           now apply dispatch_io_no_break.
        -- intros cmd' Hc. rewrite Hcmd in Hc. injection Hc as <-. exact Hnot.
    + apply (Hnever raw eq_refl); [|intros cmd' Hc; congruence].
      destruct (step_io_not_command t c h raw w Hcmd) as [E|Hline].
      * rewrite E. discriminate.
      * destruct (step_io_chat_outcome t c h raw w Hline)
          as (req & line & after & E & _).
        rewrite E. apply finish_no_break. discriminate.
  - unfold step_io.
    destruct (farewell_breaks t h (newline +:+ bye)) as [Hbreak Hh].
    split; [|intros _; exact Hh]. rewrite Hbreak. split.
    + intros Hp. left. auto.
    + intros [[_ Hp]|(raw' & cmd' & H & _)]; [exact Hp | discriminate H].
Qed.

(** X8. An iteration sends a request exactly when the line is a chat turn,
    and then sends one; blank lines, commands and the end of input send
    none.  This is so on every terminal: the request is sent before
    anything is printed. *)
Theorem request_only_on_chat_turn
    (c : config) (h : list message) (inp : input_event) (w : world) :
  (((exists raw, inp = Line raw /\ is_chat_line raw) ->
    exists window, submitted (out_events (step c h inp w)) = [window])
   /\ (~ (exists raw, inp = Line raw /\ is_chat_line raw) ->
       submitted (out_events (step c h inp w)) = []))
  /\ forall t,
       ((exists raw, inp = Line raw /\ is_chat_line raw) ->
        exists window,
          submitted (end_events (step_io t c h inp w)) = [window])
       /\ (~ (exists raw, inp = Line raw /\ is_chat_line raw) ->
           submitted (end_events (step_io t c h inp w)) = []).
Proof.
  split; [split|intros t; split].
  - intros (raw & -> & Hline).
    destruct (chat_turn_submits c h raw w Hline) as (window & _ & Hs). eauto.
  - apply non_chat_submits_nothing.
  - intros (raw & -> & Hline).
    destruct (step_io_chat_outcome t c h raw w Hline)
      as (req & line & after & E & _).
    rewrite E, finish_submitted. eexists. reflexivity.
  - intros Hno. destruct inp as [raw|];
      [|unfold step_io; now rewrite finish_submitted].
    destruct (command_word raw) as [cmd|] eqn:Hcmd.
    + rewrite (step_io_dispatch t c h raw w cmd Hcmd).
      io_command_cases h; rewrite ?finish_submitted, ?fatal_submitted;
        reflexivity.
    + destruct (step_io_not_command t c h raw w Hcmd) as [E|Hline].
      * now rewrite E.
      * destruct Hno. eauto.
Qed.

(** X16. A sigil-prefixed line whose command word is none of the six known
    ones changes nothing and sends nothing: it prints the word, in lower
    case, as an unknown command.  On a terminal that cannot print the
    word, the [print] raises and the handler at the end of [main] takes
    over. *)
Theorem unknown_command_is_reported
    (c : config) (h : list message) (raw cmd : string) (w : world) :
  command_word raw = Some cmd ->
  cmd ∉ ([":quit"; ":q"; ":exit"; ":help"; ":reset"; ":save"] : list string) ->
  step c h (Line raw) w =
  {| out_history := h;
     out_events := [Print ("Unknown command: " +:+ cmd +:+ ". Type :help")];
     out_control := Continue |}
  /\ forall t,
       let line := "Unknown command: " +:+ cmd +:+ ". Type :help" in
       (print_error t line = None ->
        step_io t c h (Line raw) w =
        {| end_history := h; end_events := [Print line];
           end_how := Continues |})
       /\ (forall msg,
             print_error t line = Some msg ->
             step_io t c h (Line raw) w = fatal t h [] (LibraryError msg)).
Proof.
  intros Hcmd Hnot.
  assert (Hnone :
    bool_decide (cmd ∈ ([":quit"; ":q"; ":exit"] : list string)) = false
    /\ bool_decide (cmd = ":help") = false
    /\ bool_decide (cmd = ":reset") = false
    /\ bool_decide (cmd = ":save") = false).
  { repeat split; apply bool_decide_eq_false_2;
      intros Hin; apply Hnot; rewrite !elem_of_cons in *; clear - Hin; tauto. }
  destruct Hnone as (Hq & Hh & Hr & Hs). split.
  - rewrite (step_dispatch c h raw w cmd Hcmd).
    unfold dispatch. now rewrite Hq, Hh, Hr, Hs.
  - intros t line. rewrite (step_io_dispatch t c h raw w cmd Hcmd).
    unfold dispatch_io. rewrite Hq, Hh, Hr, Hs.
    exact (finish_one_line t h h [] line Continues).
Qed.

(** X15. Only ":reset" drops messages: after any other iteration the old
    history is a prefix of the new one, on every terminal. *)
Theorem only_reset_drops_messages
    (c : config) (h : list message) (inp : input_event) (w : world) :
  (forall raw, inp = Line raw -> command_word raw <> Some ":reset") ->
  h `prefix_of` out_history (step c h inp w)
  /\ forall t, h `prefix_of` end_history (step_io t c h inp w).
Proof.
  intros Hnr. split.
  - destruct inp as [raw|]; [|reflexivity].
    destruct (is_empty (strip raw)) eqn:Hemp.
    { unfold step. now rewrite Hemp. }
    destruct (startswith ":" (strip raw)) eqn:Hsig.
    + destruct (sigil_command_word raw Hsig) as [cmd Hcmd].
      rewrite (step_dispatch c h raw w cmd Hcmd).
      assert (cmd <> ":reset") by (intros ->; now apply (Hnr raw)).
      command_cases h; try reflexivity; congruence.
    + destruct (step_chat_outcome c h raw w Hemp Hsig) as (trimmed & _ & E).
      cbv zeta in E. rewrite E. cbn [out_history]. now apply prefix_app_r.
  - intros t.
    assert (Hfin : forall evs lines how,
               h `prefix_of` end_history (finish t h h evs lines how)).
    { intros evs lines how.
      destruct (finish_history t h h evs lines how) as [-> | ->]; reflexivity. }
    destruct inp as [raw|]; [|apply Hfin].
    destruct (command_word raw) as [cmd|] eqn:Hcmd.
    + rewrite (step_io_dispatch t c h raw w cmd Hcmd).
      assert (cmd <> ":reset") by (intros ->; now apply (Hnr raw)).
      io_command_cases h; rewrite ?fatal_history;
        first [congruence | apply Hfin | reflexivity].
    + destruct (step_io_not_command t c h raw w Hcmd) as [E|Hline].
      * now rewrite E.
      * destruct (step_io_chat_outcome t c h raw w Hline)
          as (req & line & after & E & Hafter).
        rewrite E.
        destruct (finish_history
                    t (h ++ [mk_message "user" (JStr (strip raw))]) after
                    [HttpPost req] [line] Continues) as [-> | ->].
        -- etransitivity; [|exact Hafter]. now apply prefix_app_r.
        -- now apply prefix_app_r.
Qed.

End Session.

(** * Instances *)

Lemma truncate_history_keeps_last_pairs_witness :
  truncate_history [10; 1; 2; 3; 4; 5] 2 = Ok [10; 2; 3; 4; 5]
  /\ submitted
       (run unused_repr unused_repr ascii_lower ascii_capitalize
           example_config (initial_history example_args)
            [(Line "hi", world_of (Ok (ok_response "Ahoy!")));
             (Line "bye", world_of (Ok (ok_response "Bye!")))]).1.2
     = [ [system_message example_args; mk_message "user" (JStr "hi")];
         [system_message example_args; mk_message "assistant" (JStr "Ahoy!");
          mk_message "user" (JStr "bye")] ].
Proof.
  destruct (truncate_history_keeps_last_pairs unused_repr unused_repr ascii_lower ascii_capitalize)
    as [Hgen Hscen].
  split.
  - destruct (Hgen Z 10 [1; 2; 3; 4; 5] 2 ltac:(lia)) as [H _]. exact H.
  - apply (Hscen example_config (world_of (Ok (ok_response "Ahoy!")))
                 (world_of (Ok (ok_response "Bye!"))) (JStr "Ahoy!")
                 "" "" [] 0%float 0); reflexivity.
Defined.

Lemma truncate_history_nonpositive_witness :
  truncate_history [10; 1; 2; 3] (-1) = Ok [10].
Proof. apply truncate_history_nonpositive. lia. Defined.

Lemma truncate_history_total_on_nonempty_witness :
  returns (truncate_history [10; 1; 2] 5)
  /\ truncate_history (@nil Z) 5 = Raise (IndexError "list index out of range").
Proof.
  destruct truncate_history_total_on_nonempty as [Hne Hnil]. split.
  - apply Hne. discriminate.
  - apply (Hnil Z 5). lia.
Defined.


Lemma call_api_succeeds_on_200_only_witness :
  (call_api unused_repr "" "" [] 0%float 60 (Ok (ok_response "Ahoy!"))).2 =
  Ok (JStr "Ahoy!")
  /\ (call_api unused_repr "" "" [] 0%float 60 (Ok server_exploded)).2 =
     Raise (RuntimeError "HTTP 500: server exploded").
Proof.
  split.
  - destruct (call_api_succeeds_on_200_only unused_repr "" "" [] 0%float 60
                (ok_response "Ahoy!")) as [H200 _].
    destruct (H200 eq_refl (reply_body "Ahoy!") eq_refl) as [Hreply _].
    apply Hreply. reflexivity.
  - destruct (call_api_succeeds_on_200_only unused_repr "" "" [] 0%float 60
                server_exploded) as [_ Hother].
    destruct (Hother ltac:(discriminate)) as [Hfail _]. exact Hfail.
Defined.

(** A status in the 200 class other than 200, here 201 with a well-formed
    body, is a failure; the same body under status 200 is a success. *)
Lemma call_api_rejects_status_201 :
  200 <= status_code (created_response "Ahoy!") < 300
  /\ json_body (created_response "Ahoy!") = Ok (reply_body "Ahoy!")
  /\ extract_reply (reply_body "Ahoy!") = Some (JStr "Ahoy!")
  /\ (call_api unused_repr "" "" [] 0%float 60 (Ok (created_response "Ahoy!"))).2 =
     Raise (RuntimeError "HTTP 201: (body)")
  /\ ~ returns (call_api unused_repr "" "" [] 0%float 60
                         (Ok (created_response "Ahoy!"))).2.
Proof.
  split; [cbn; lia|]. split; [reflexivity|]. split; [reflexivity|].
  split; [reflexivity|]. intros [v Hv]. discriminate Hv.
Defined.

Lemma system_message_stays_first_witness :
  let h := out_history
             (step unused_repr unused_repr ascii_lower ascii_capitalize example_config
                   (initial_history example_args) (Line "hi")
                   (world_of (Ok (ok_response "Ahoy!")))) in
  h !! 0%nat = Some (system_message example_args)
  /\ out_history
       (step unused_repr unused_repr ascii_lower ascii_capitalize
           example_config h (Line ":reset")
             (world_of (Ok (ok_response "Ahoy!")))) !! 0%nat
     = Some (system_message example_args).
Proof.
  destruct (system_message_stays_first unused_repr unused_repr ascii_lower ascii_capitalize
      example_config)
    as (Hreach & _ & _ & Hstep).
  assert (Hr : reachable unused_repr unused_repr ascii_lower ascii_capitalize
      example_config
                 (out_history
                    (step unused_repr unused_repr ascii_lower ascii_capitalize
                        example_config
                          (initial_history example_args) (Line "hi")
                          (world_of (Ok (ok_response "Ahoy!"))))))
    by (apply reachable_step; [apply reachable_init | reflexivity]).
  split.
  - exact (proj1 (Hreach _ Hr)).
  - apply Hstep. exact (proj1 (Hreach _ Hr)).
Defined.

Lemma reset_keeps_only_system_message_witness :
  out_history
    (step unused_repr unused_repr ascii_lower ascii_capitalize example_config
          (out_history
             (step unused_repr unused_repr ascii_lower ascii_capitalize example_config
                   (initial_history example_args) (Line "hi")
                   (world_of (Ok (ok_response "Ahoy!")))))
          (Line " :RESET now ") (world_of (Ok (ok_response "Ahoy!"))))
  = [system_message example_args].
Proof.
  assert (Hr : reachable unused_repr unused_repr ascii_lower ascii_capitalize
      example_config
                 (out_history
                    (step unused_repr unused_repr ascii_lower ascii_capitalize
                        example_config
                          (initial_history example_args) (Line "hi")
                          (world_of (Ok (ok_response "Ahoy!"))))))
    by (apply reachable_step; [apply reachable_init | reflexivity]).
  destruct (reset_keeps_only_system_message unused_repr unused_repr ascii_lower ascii_capitalize
              example_config _ " :RESET now " (world_of (Ok (ok_response "Ahoy!")))
              Hr eq_refl) as [H _].
  now rewrite H.
Defined.

Lemma blank_line_is_ignored_witness :
  let raw := " " +:+ String "194" (String "160" (String "009" "")) in
  step unused_repr unused_repr ascii_lower ascii_capitalize
       example_config (initial_history example_args)
       (Line raw) (world_of (Ok (ok_response "Ahoy!")))
  = {| out_history := initial_history example_args; out_events := [];
       out_control := Continue |}
  /\ forall t,
       step_io unused_repr unused_repr ascii_lower ascii_capitalize
         surrogates_not_allowed t example_config
         (initial_history example_args) (Line raw)
         (world_of (Ok (ok_response "Ahoy!")))
       = {| end_history := initial_history example_args; end_events := [];
            end_how := Continues |}.
Proof.
  exact (blank_line_is_ignored unused_repr unused_repr ascii_lower
           ascii_capitalize surrogates_not_allowed example_config
           (initial_history example_args)
           (" " +:+ String "194" (String "160" (String "009" "")))
           (world_of (Ok (ok_response "Ahoy!"))) eq_refl).
Defined.

Lemma command_keyword_ignores_case_witness :
  step unused_repr unused_repr ascii_lower ascii_capitalize example_config
       (initial_history example_args)
       (Line "  :SAVE Chat.TXT") (world_of (Ok (ok_response "Ahoy!")))
  = step unused_repr unused_repr ascii_lower ascii_capitalize example_config
         (initial_history example_args)
         (Line "  :save Chat.TXT") (world_of (Ok (ok_response "Ahoy!")))
  /\ step unused_repr unused_repr ascii_lower ascii_capitalize example_config
          (initial_history example_args)
          (Line (":Quit" +:+ String "194" (String "160" "")))
          (world_of (Ok (ok_response "Ahoy!")))
     = {| out_history := initial_history example_args;
          out_events := [Print bye]; out_control := Break |}
  /\ step unused_repr unused_repr ascii_lower ascii_capitalize example_config
          (initial_history example_args) (Line ":QUIT")
          (world_of (Ok (ok_response "Ahoy!")))
     = {| out_history := initial_history example_args;
          out_events := [Print bye]; out_control := Break |}.
Proof.
  destruct (command_keyword_ignores_case unused_repr unused_repr ascii_lower
              ascii_capitalize surrogates_not_allowed example_config
              (initial_history example_args)
              (world_of (Ok (ok_response "Ahoy!")))) as [Hgen Hascii].
  split; [|split].
  - destruct (Hgen "  :save Chat.TXT" eq_refl)
      as (p0 & Hp0 & _ & _ & _ & _ & Hsame & _).
    cbv in Hp0. injection Hp0 as <-.
    apply (Hsame "  :SAVE Chat.TXT" ":SAVE"); reflexivity.
  - destruct (Hgen (":Quit" +:+ String "194" (String "160" "")) eq_refl)
      as (p0 & Hp0 & _ & Hquit & _).
    cbv in Hp0. injection Hp0 as <-.
    apply Hquit. apply elem_of_cons. left. reflexivity.
  - apply Hascii. intros s _. reflexivity.
Defined.

(** A content with a blank line in it is read back as two entries, and is
    written exactly as a two-message history is: no reader can tell the
    two apart. *)
Lemma transcript_round_trip_witness :
  exists contents,
    save_transcript_utf8 unused_repr ascii_capitalize surrogates_not_allowed
      example_world
      [system_message example_args; mk_message "user" (JStr "hi");
       mk_message "assistant" (JStr ("Ahoy!" +:+ newline +:+ "Ready?"))]
      "chat.txt"
    = (Some contents, Ok "/home/bob/chat.txt")
    /\ parse_transcript contents =
       Some [("System", system_prompt example_args); ("User", "hi");
             ("Assistant", "Ahoy!" +:+ newline +:+ "Ready?")].
Proof.
  destruct (transcript_round_trip unused_repr ascii_capitalize
              surrogates_not_allowed example_world
              [system_message example_args; mk_message "user" (JStr "hi");
               mk_message "assistant" (JStr ("Ahoy!" +:+ newline +:+ "Ready?"))]
              "chat.txt"
              [("system", system_prompt example_args); ("user", "hi");
               ("assistant", "Ahoy!" +:+ newline +:+ "Ready?")]
              eq_refl)
    as (contents & Hsave & _ & Hparse & _).
  - repeat (constructor; [split; reflexivity|]). constructor.
  - exists contents. split; [exact Hsave | exact Hparse].
Defined.

Lemma transcript_round_trip_fails :
  let one := [mk_message "user"
                (JStr ("a" +:+ newline +:+ newline +:+ "User: b"))] in
  let two := [mk_message "user" (JStr "a"); mk_message "user" (JStr "b")] in
  transcript_text unused_repr ascii_capitalize one
    = transcript_text unused_repr ascii_capitalize two
  /\ (exists t, transcript_text unused_repr ascii_capitalize one = Ok t
                /\ parse_transcript t = Some [("User", "a"); ("User", "b")]
                /\ parse_transcript t
                   <> Some (written_pairs unused_repr ascii_capitalize one))
  /\ length one = 1%nat
  /\ length (written_pairs unused_repr ascii_capitalize two) = 2%nat
  /\ written_pairs unused_repr ascii_capitalize one
     <> written_pairs unused_repr ascii_capitalize two
  /\ map message_pair one
     = [Some ("user", "a" +:+ newline +:+ newline +:+ "User: b")]
  /\ save_transcript_utf8 unused_repr ascii_capitalize surrogates_not_allowed
       example_world one "chat.txt"
     = save_transcript_utf8 unused_repr ascii_capitalize
         surrogates_not_allowed example_world two "chat.txt"
  /\ returns
       (save_transcript_utf8 unused_repr ascii_capitalize
          surrogates_not_allowed example_world one "chat.txt").2.
Proof.
  cbv zeta. split; [reflexivity|]. split.
  - eexists. split; [reflexivity|]. split; [reflexivity|]. discriminate.
  - split; [reflexivity|]. split; [reflexivity|]. split; [discriminate|].
    split; [reflexivity|]. split; [reflexivity|]. eexists. reflexivity.
Defined.


(** * Further instances *)

Lemma example_history_reachable :
  reachable unused_repr unused_repr ascii_lower ascii_capitalize
      example_config example_history.
Proof.
  change example_history
    with (out_history
            (step unused_repr unused_repr ascii_lower ascii_capitalize example_config
                  (initial_history (cfg_args example_config)) (Line "hi")
                  example_world)).
  apply reachable_step; [apply reachable_init | reflexivity].
Qed.

Lemma truncate_history_idempotent_witness :
  truncate_history [10; 1; 2; 3; 4; 5] 1 = Ok [10; 4; 5]
  /\ truncate_history [10; 4; 5] 1 = Ok [10; 4; 5].
Proof.
  split; [reflexivity|].
  apply (truncate_history_idempotent [10; 1; 2; 3; 4; 5]). reflexivity.
Defined.

Lemma truncate_history_bounded_witness :
  [10; 4; 5] `sublist_of` [10; 1; 2; 3; 4; 5]
  /\ (length [10; 4; 5] <= length [10; 1; 2; 3; 4; 5])%nat
  /\ Z.of_nat (length [10; 4; 5]) <= 1 + Z.max 0 (2 * 1).
Proof.
  apply (truncate_history_bounded [10; 1; 2; 3; 4; 5] [10; 4; 5] 1).
  reflexivity.
Defined.

Lemma chat_turn_window_witness :
  is_chat_line " bye "
  /\ exists window,
       submitted
         (out_events
            (step unused_repr unused_repr ascii_lower ascii_capitalize
                example_config example_history
                  (Line " bye ") example_world)) = [window]
       /\ exists earlier,
            window = system_message example_args :: earlier ++
                     [mk_message "user" (JStr "bye")]
            /\ Z.of_nat (length earlier) < 2.
Proof.
  assert (Hline : is_chat_line " bye ") by (split; reflexivity).
  split; [exact Hline|].
  destruct (chat_turn_window unused_repr unused_repr ascii_lower ascii_capitalize
      example_config
              (system_message example_args)
              [mk_message "user" (JStr "hi"); mk_message "assistant" (JStr "Ahoy!")]
              " bye " example_world Hline) as (window & Hs & Hpos & _).
  exists window. split; [exact Hs|].
  destruct (Hpos ltac:(reflexivity)) as (earlier & Hw & Hlen & _).
  exists earlier. split; [exact Hw | exact Hlen].
Defined.

Lemma reachable_history_alternates_witness :
  alternating (tail example_history)
  /\ exists turns, length example_history = (2 * turns + 1)%nat.
Proof.
  exact (reachable_history_alternates unused_repr unused_repr ascii_lower ascii_capitalize
      example_config
           example_history example_history_reachable).
Defined.

Lemma chat_turn_window_splits_pair_witness :
  exists reply later,
    submitted
      (out_events
         (step unused_repr unused_repr ascii_lower ascii_capitalize
             example_config example_history
               (Line "bye") example_world))
    = [system_message example_args :: reply :: later]
    /\ reply !! "role" = Some (JStr "assistant").
Proof.
  destruct (chat_turn_window_splits_pair unused_repr unused_repr ascii_lower ascii_capitalize
      example_config
              example_history "bye" example_world example_history_reachable
              (conj eq_refl eq_refl) ltac:(reflexivity) ltac:(reflexivity))
    as (reply & later & Hs & Hrole & _).
  exists reply, later. split; [exact Hs | exact Hrole].
Defined.




Lemma transcript_text_app_witness :
  transcript_text unused_repr ascii_capitalize
    ([mk_message "user" (JStr "hi")] ++ [mk_message "assistant" (JStr "Ahoy!")])
  = Ok (("User: hi" +:+ newline +:+ newline) +:+
        ("Assistant: Ahoy!" +:+ newline +:+ newline)).
Proof. apply transcript_text_app; reflexivity. Defined.

Lemma extract_reply_shape_witness :
  extract_reply (reply_body "Ahoy!") = Some (JStr "Ahoy!")
  /\ extract_reply (JObj [("choices", JStr "Ahoy!")]) <> Some (JStr "A").
Proof.
  split.
  - apply extract_reply_shape.
    exists [("choices", JArr [JObj [("message", JObj [("content", JStr "Ahoy!")])]])],
      [], [("message", JObj [("content", JStr "Ahoy!")])],
      [("content", JStr "Ahoy!")].
    repeat split; reflexivity.
  - intros H. apply extract_reply_shape in H
      as (d & others & d1 & d2 & [= <-] & H & _).
    discriminate H.
Defined.

Lemma call_api_failure_kinds_witness :
  (call_api unused_repr "" "" [] 0%float 60 (Ok server_exploded)).2 =
  Raise (RuntimeError "HTTP 500: server exploded")
  /\ (call_api unused_repr "" "" [] 0%float 60
               (Ok {| status_code := 200; text := "oops";
                      json_body := Raise (LibraryError "Expecting value") |})).2 =
     Raise (LibraryError "Expecting value")
  /\ (call_api unused_repr "" "" [] 0%float 60
               (Raise (LibraryError "Read timed out"))).2 =
     Raise (LibraryError "Read timed out").
Proof.
  split; [|split]; apply call_api_failure_kinds.
  - right. exists server_exploded. split; [reflexivity|].
    left. split; [discriminate | reflexivity].
  - right. eexists. split; [reflexivity|]. right. left. split; reflexivity.
  - left. reflexivity.
Defined.


Lemma main_setup_endpoint_witness :
  exists cfg session banner,
    main_setup example_override_args example_environ = Ok (cfg, session, banner)
    /\ cfg_url cfg = "https://example.org/api/chat/completions"
    /\ cfg_model cfg = "gemma3:4b".
Proof.
  eexists _, _, _. split; [reflexivity|].
  destruct (main_setup_endpoint example_override_args example_environ _ _ _
              eq_refl) as (Hurl & _ & _ & Hmodel & _).
  split; [exact Hurl | exact Hmodel].
Defined.

Lemma main_setup_fails_on_missing_settings_witness :
  main_setup example_override_args ∅ =
  Raise (RuntimeError "Missing SOONERAI_API_KEY in ~/.soonerai.env")
  /\ returns (main_setup example_override_args example_environ).
Proof.
  destruct (main_setup_fails_on_missing_settings example_override_args ∅)
    as (Hkey & _ & _).
  destruct (main_setup_fails_on_missing_settings example_override_args
              example_environ) as (_ & _ & Hok).
  split; [apply Hkey; reflexivity | apply Hok; discriminate].
Defined.

Lemma main_setup_banner_and_headers_witness :
  exists cfg session banner,
    main_setup example_override_args example_environ = Ok (cfg, session, banner)
    /\ banner !! 2%nat =
       Some (Print ("  Model: gemma3:4b | Endpoint: " +:+
                    "https://example.org/api/chat/completions"))
    /\ session !! "Authorization" = Some "Bearer sk-test".
Proof.
  eexists _, _, _. split; [reflexivity|].
  destruct (main_setup_banner_and_headers example_override_args
              example_environ _ _ _ eq_refl) as (Hb & _ & (key & Hk & Ha) & _).
  split; [exact Hb|]. injection Hk as <-. exact Ha.
Defined.

Lemma reset_clears_what_is_sent_witness :
  submitted
    (out_events
       (step unused_repr unused_repr ascii_lower ascii_capitalize example_config
             (out_history
                (step unused_repr unused_repr ascii_lower ascii_capitalize
                    example_config example_history
                      (Line ":reset") example_world))
             (Line "bye") example_world))
  = [[system_message example_args; mk_message "user" (JStr "bye")]].
Proof.
  apply (reset_clears_what_is_sent unused_repr unused_repr ascii_lower ascii_capitalize
      example_config
           example_history ":reset" "bye" example_world example_world
           example_history_reachable eq_refl (conj eq_refl eq_refl)).
  reflexivity.
Defined.

Lemma error_placeholder_is_sent_again_witness :
  exists window earlier,
    submitted
      (out_events
         (step unused_repr unused_repr ascii_lower ascii_capitalize example_config
               (out_history
                  (step unused_repr unused_repr ascii_lower ascii_capitalize
                      example_config
                        (initial_history example_args) (Line "hi") failing_world))
               (Line "bye") example_world))
    = [window]
    /\ window =
       earlier ++
       [mk_message "assistant" (JStr "(Error: HTTP 500: server exploded)");
        mk_message "user" (JStr "bye")].
Proof.
  apply (error_placeholder_is_sent_again unused_repr unused_repr ascii_lower ascii_capitalize
      example_config
           (initial_history example_args) "hi" "bye" failing_world example_world
           (RuntimeError "HTTP 500: server exploded") "" "" [] 0%float 0).
  - discriminate.
  - split; reflexivity.
  - reflexivity.
  - split; reflexivity.
  - reflexivity.
Defined.

(** ** Output that fails *)


Lemma example_history_writable :
  Forall (writable unused_repr ascii_capitalize) example_history.
Proof. repeat constructor; eexists; split; reflexivity. Qed.


Lemma save_transcript_returns_iff_witness :
  returns
    (save_transcript_utf8 unused_repr ascii_capitalize surrogates_not_allowed
       example_world example_history "chat.txt").2
  /\ (exists written,
        transcript_text unused_repr ascii_capitalize
          [mk_message "user" (JStr "hi")] = Ok written
        /\ save_transcript_utf8 unused_repr ascii_capitalize
             surrogates_not_allowed example_world
             [mk_message "user" (JStr "hi"); <["role" := JNull]> ∅] "chat.txt"
           = (Some written,
              Raise (AttributeError
                       "'NoneType' object has no attribute 'capitalize'"))
        /\ save_transcript_utf8 unused_repr ascii_capitalize
             surrogates_not_allowed example_world
             [mk_message "user" (JStr "hi");
              mk_message "assistant" (JStr lone_surrogate)] "chat.txt"
           = (Some written,
              Raise (LibraryError
                       ("'utf-8' codec can't encode character: "
                        +:+ "surrogates not allowed"))))
  /\ save_transcript_utf8 unused_repr ascii_capitalize surrogates_not_allowed
       readonly_world example_history "chat.txt"
     = (None, Raise (LibraryError "[Errno 13] Permission denied")).
Proof.
  split; [|split].
  - destruct (save_transcript_returns_iff unused_repr ascii_capitalize
                surrogates_not_allowed example_world example_history
                "chat.txt") as (_ & _ & Hok).
    destruct (Hok eq_refl) as [Hiff _]. apply Hiff.
    exact example_history_writable.
  - destruct (save_transcript_returns_iff unused_repr ascii_capitalize
                surrogates_not_allowed example_world
                [mk_message "user" (JStr "hi"); <["role" := JNull]> ∅]
                "chat.txt") as (_ & _ & Hrole).
    destruct (Hrole eq_refl) as (_ & _ & Hrole').
    destruct (Hrole' [mk_message "user" (JStr "hi")] (<["role" := JNull]> ∅) []
                     eq_refl)
      as (written & Hw & Hattr & _).
    { repeat constructor; eexists; split; reflexivity. }
    destruct (save_transcript_returns_iff unused_repr ascii_capitalize
                surrogates_not_allowed example_world
                [mk_message "user" (JStr "hi");
                 mk_message "assistant" (JStr lone_surrogate)]
                "chat.txt") as (_ & _ & Henc).
    destruct (Henc eq_refl) as (_ & _ & Henc').
    destruct (Henc' [mk_message "user" (JStr "hi")]
                    (mk_message "assistant" (JStr lone_surrogate)) [] eq_refl)
      as (written' & Hw' & _ & Hsur).
    { repeat constructor; eexists; split; reflexivity. }
    exists written. split; [exact Hw|]. split.
    + apply (Hattr JNull eq_refl). intros r. discriminate.
    + rewrite Hw in Hw'. injection Hw' as <-.
      apply (Hsur ("Assistant: " +:+ lone_surrogate +:+ newline +:+ newline));
        reflexivity.
  - destruct (save_transcript_returns_iff unused_repr ascii_capitalize
                surrogates_not_allowed readonly_world example_history
                "chat.txt") as (_ & Hfs & _).
    apply Hfs. reflexivity.
Defined.

Lemma successful_turn_is_recorded_witness :
  (end_history
     (step_io unused_repr unused_repr ascii_lower ascii_capitalize
        surrogates_not_allowed utf8_terminal example_config
        (initial_history example_args) (Line "hi") example_world)
   = example_history
   /\ end_how
        (step_io unused_repr unused_repr ascii_lower ascii_capitalize
           surrogates_not_allowed utf8_terminal example_config
           (initial_history example_args) (Line "hi") example_world)
      = Continues)
  /\ (end_history
        (step_io unused_repr unused_repr ascii_lower ascii_capitalize
           surrogates_not_allowed ascii_terminal example_config
           (initial_history example_args) (Line "hi")
           (world_of (Ok (ok_response bye))))
      = initial_history example_args ++ [mk_message "user" (JStr "hi")]
      /\ end_how
           (step_io unused_repr unused_repr ascii_lower ascii_capitalize
              surrogates_not_allowed ascii_terminal example_config
              (initial_history example_args) (Line "hi")
              (world_of (Ok (ok_response bye))))
         = Exits1).
Proof.
  split.
  - destruct (successful_turn_is_recorded unused_repr unused_repr ascii_lower
                ascii_capitalize surrogates_not_allowed utf8_terminal
                example_config (initial_history example_args) "hi"
                example_world (JStr "Ahoy!") "" "" [] 0%float 0
                (conj eq_refl eq_refl) eq_refl)
      as (req & _ & Hprinted & _).
    destruct (Hprinted eq_refl) as (Hhow & Hh & _).
    split; [exact Hh | exact Hhow].
  - destruct (successful_turn_is_recorded unused_repr unused_repr ascii_lower
                ascii_capitalize surrogates_not_allowed ascii_terminal
                example_config (initial_history example_args) "hi"
                (world_of (Ok (ok_response bye))) (JStr bye) "" "" [] 0%float 0
                (conj eq_refl eq_refl) eq_refl)
      as (req & _ & _ & Hraised).
    destruct (Hraised "'ascii' codec can't encode characters" eq_refl)
      as (Hh & Hexit & _).
    destruct (Hexit eq_refl) as [Hhow _].
    split; [exact Hh | exact Hhow].
Defined.

Lemma step_io_agrees_with_step_witness :
  step_io unused_repr unused_repr ascii_lower ascii_capitalize
    surrogates_not_allowed utf8_terminal example_config example_history
    (Line ":save out.txt") example_world
  = as_outcome_io
      (step unused_repr unused_repr ascii_lower ascii_capitalize
         example_config example_history (Line ":save out.txt") example_world).
Proof.
  apply (step_io_agrees_with_step unused_repr unused_repr ascii_lower
           ascii_capitalize surrogates_not_allowed utf8_terminal
           example_config example_history (Line ":save out.txt")
           example_world (fun _ => eq_refl) example_history_writable).
Defined.

Lemma surviving_iteration_is_step_witness :
  step_io unused_repr unused_repr ascii_lower ascii_capitalize
    surrogates_not_allowed ascii_terminal example_config
    (initial_history example_args) (Line "hi") example_world
  = as_outcome_io
      (step unused_repr unused_repr ascii_lower ascii_capitalize
         example_config (initial_history example_args) (Line "hi")
         example_world).
Proof.
  apply (surviving_iteration_is_step unused_repr unused_repr ascii_lower
           ascii_capitalize surrogates_not_allowed ascii_terminal
           example_config (initial_history example_args) (Line "hi")
           example_world).
  left. reflexivity.
Defined.

Lemma loop_breaks_only_on_quit_witness :
  out_control
    (step unused_repr unused_repr ascii_lower ascii_capitalize
       example_config example_history (Line " :Q ") example_world) = Break
  /\ end_how
       (step_io unused_repr unused_repr ascii_lower ascii_capitalize
          surrogates_not_allowed utf8_terminal example_config example_history
          (Line " :Q ") example_world) = Breaks
  /\ end_how
       (step_io unused_repr unused_repr ascii_lower ascii_capitalize
          surrogates_not_allowed ascii_terminal example_config
          example_history (Line " :Q ") example_world) <> Breaks.
Proof.
  destruct (loop_breaks_only_on_quit unused_repr unused_repr ascii_lower
              ascii_capitalize surrogates_not_allowed example_config
              example_history (Line " :Q ") example_world)
    as (Hiff & _ & Hio).
  assert (Hq : ":q" ∈ ([":quit"; ":q"; ":exit"] : list string)).
  { apply elem_of_cons. right. apply elem_of_cons. left. reflexivity. }
  split; [|split].
  - apply Hiff. right. exists " :Q ", ":q".
    split; [reflexivity|]. split; [reflexivity | exact Hq].
  - apply (proj2 (proj1 (Hio utf8_terminal))). right. exists " :Q ", ":q".
    split; [reflexivity|]. split; [reflexivity|]. split; [exact Hq|].
    reflexivity.
  - intros H. apply (proj1 (proj1 (Hio ascii_terminal))) in H.
    destruct H as [[H _]|(raw & cmd & _ & _ & _ & Hp)]; discriminate.
Defined.

Lemma request_only_on_chat_turn_witness :
  (exists window,
      submitted
        (out_events
           (step unused_repr unused_repr ascii_lower ascii_capitalize
              example_config example_history (Line "bye") example_world))
      = [window])
  /\ submitted
       (out_events
          (step unused_repr unused_repr ascii_lower ascii_capitalize
             example_config example_history (Line ":help") example_world))
     = []
  /\ exists window,
       submitted
         (end_events
            (step_io unused_repr unused_repr ascii_lower ascii_capitalize
               surrogates_not_allowed ascii_terminal example_config
               example_history (Line "bye")
               (world_of (Ok (ok_response bye)))))
       = [window].
Proof.
  split; [|split].
  - apply (request_only_on_chat_turn unused_repr unused_repr ascii_lower
             ascii_capitalize surrogates_not_allowed example_config
             example_history (Line "bye") example_world).
    exists "bye". split; [reflexivity | split; reflexivity].
  - apply (request_only_on_chat_turn unused_repr unused_repr ascii_lower
             ascii_capitalize surrogates_not_allowed example_config
             example_history (Line ":help") example_world).
    intros (raw & [= <-] & _ & H). discriminate H.
  - apply (request_only_on_chat_turn unused_repr unused_repr ascii_lower
             ascii_capitalize surrogates_not_allowed example_config
             example_history (Line "bye") (world_of (Ok (ok_response bye)))).
    exists "bye". split; [reflexivity | split; reflexivity].
Defined.

Lemma only_reset_drops_messages_witness :
  example_history `prefix_of`
  out_history
    (step unused_repr unused_repr ascii_lower ascii_capitalize
       example_config example_history (Line ":save") readonly_world)
  /\ forall t,
       example_history `prefix_of`
       end_history
         (step_io unused_repr unused_repr ascii_lower ascii_capitalize
            surrogates_not_allowed t example_config example_history
            (Line ":save") readonly_world).
Proof.
  apply (only_reset_drops_messages unused_repr unused_repr ascii_lower
           ascii_capitalize surrogates_not_allowed example_config
           example_history (Line ":save") readonly_world).
  intros raw [= <-]. discriminate.
Defined.

Lemma unknown_command_is_reported_witness :
  step unused_repr unused_repr ascii_lower ascii_capitalize example_config
       example_history (Line " :Helpme please") example_world
  = {| out_history := example_history;
       out_events := [Print "Unknown command: :helpme. Type :help"];
       out_control := Continue |}
  /\ step_io unused_repr unused_repr ascii_lower ascii_capitalize
       surrogates_not_allowed ascii_terminal example_config example_history
       (Line " :Helpme please") example_world
     = {| end_history := example_history;
          end_events := [Print "Unknown command: :helpme. Type :help"];
          end_how := Continues |}.
Proof.
  destruct (unknown_command_is_reported unused_repr unused_repr ascii_lower
              ascii_capitalize surrogates_not_allowed example_config
              example_history " :Helpme please" ":helpme" example_world
              eq_refl) as [Hstep Hio].
  { rewrite !not_elem_of_cons. repeat split; try discriminate.
    apply not_elem_of_nil. }
  split; [exact Hstep|].
  destruct (Hio ascii_terminal) as [Hok _]. apply Hok. reflexivity.
Defined.
